(** * Announcements endpoints of the High School Management System API

    A shallow embedding of [src/backend/routers/announcements.py].

    Python dictionaries (MongoDB documents, the JSON objects the endpoints
    return) are finite maps from field names to strings; the two collections
    and the log of the operations performed on them are threaded through a
    small state-and-exception monad; [HTTPException] is the exception the
    handlers raise. *)

From Stdlib Require Import ZArith NArith String Ascii List Bool Lia.
From Stdlib Require Import Sorted OrdersEx.
From stdpp Require Import base option list gmap strings pretty.

Local Open Scope string_scope.
Local Open Scope N_scope.

(** ** Strings, dates and clocks *)

Module Py.

(** [len(s)] for a string of ASCII characters. *)
Definition len (s : string) : nat := String.length s.

(** Truth value of a [str]: the empty string is falsy. *)
Definition truthy (s : string) : bool :=
  match s with
  | EmptyString => false
  | String _ _ => true
  end.

(** [o or ""] for [o : Optional[str]]. *)
Definition or_empty (o : option string) : string :=
  match o with
  | None => ""
  | Some s => if truthy s then s else ""
  end.

(** Value of an ASCII decimal digit. *)
Definition digit_val (c : ascii) : option N :=
  let n := N_of_ascii c in
  if (48 <=? n) && (n <=? 57) then Some (n - 48) else None.

(** Value of an ASCII hexadecimal digit, either case. *)
Definition hex_val (c : ascii) : option N :=
  let n := N_of_ascii c in
  if (48 <=? n) && (n <=? 57) then Some (n - 48)
  else if (97 <=? n) && (n <=? 102) then Some (n - 87)
  else if (65 <=? n) && (n <=? 70) then Some (n - 55)
  else None.

(** The lower-case hexadecimal digit of a value below sixteen. *)
Definition hex_digit (n : N) : ascii :=
  if n <? 10 then ascii_of_N (48 + n) else ascii_of_N (87 + n).

(** ASCII white space, as [bytes.fromhex] skips it between bytes. *)
Definition is_space (c : ascii) : bool :=
  let n := N_of_ascii c in
  (n =? 32) || ((9 <=? n) && (n <=? 13)).

(** ["%0<w>d" % n]: decimal, padded with zeros on the left up to width [w]. *)
Definition zfill (w : nat) (n : N) : string :=
  let s := pretty n in
  String.concat "" (replicate (w - String.length s)%nat "0") ++ s.

(** A [datetime.datetime] value, as [datetime.now()] returns it. *)
Record datetime := {
  year : N; month : N; day : N;
  hour : N; minute : N; second : N; microsecond : N
}.

(** [dt.strftime("%Y-%m-%d")]. *)
Definition strftime_Ymd (dt : datetime) : string :=
  zfill 4 (year dt) ++ "-" ++ zfill 2 (month dt) ++ "-" ++ zfill 2 (day dt).

(** [dt.isoformat()]: the microseconds are printed only when not zero. *)
Definition isoformat (dt : datetime) : string :=
  strftime_Ymd dt ++ "T" ++ zfill 2 (hour dt) ++ ":" ++ zfill 2 (minute dt)
    ++ ":" ++ zfill 2 (second dt)
    ++ (if microsecond dt =? 0 then "" else "." ++ zfill 6 (microsecond dt)).

Definition is_leap (y : N) : bool :=
  (y mod 4 =? 0) && (negb (y mod 100 =? 0) || (y mod 400 =? 0)).

Definition days_in_month (y m : N) : N :=
  if m =? 2 then (if is_leap y then 29 else 28)
  else if (m =? 4) || (m =? 6) || (m =? 9) || (m =? 11) then 30
  else 31.

(** One alternative of a regular expression group: it consumes a prefix of
    the input and yields the number it read. *)
Definition alternative := string -> option (N * string).

(** An ordered choice [a1|a2|...] followed by the rest of the pattern [k]:
    the first alternative after which the rest matches wins. *)
Fixpoint first_match {B : Type} (alts : list alternative)
    (k : N -> string -> option B) (s : string) : option B :=
  match alts with
  | [] => None
  | a :: alts' =>
      match a s with
      | Some (n, rest) =>
          match k n rest with
          | Some b => Some b
          | None => first_match alts' k s
          end
      | None => first_match alts' k s
      end
  end.

(** Two characters [c1 c2] with [c1] a digit between [lo1] and [hi1] and
    [c2] a digit between [lo2] and [hi2]. *)
Definition two_digits (lo1 hi1 lo2 hi2 : N) : alternative := fun s =>
  match s with
  | String c1 (String c2 rest) =>
      match digit_val c1, digit_val c2 with
      | Some d1, Some d2 =>
          if (lo1 <=? d1) && (d1 <=? hi1) && (lo2 <=? d2) && (d2 <=? hi2)
          then Some (10 * d1 + d2, rest) else None
      | _, _ => None
      end
  | _ => None
  end.

(** One digit between 1 and 9. *)
Definition one_digit : alternative := fun s =>
  match s with
  | String c rest =>
      match digit_val c with
      | Some d => if 1 <=? d then Some (d, rest) else None
      | None => None
      end
  | _ => None
  end.

(** A space followed by one digit between 1 and 9. *)
Definition space_digit : alternative := fun s =>
  match s with
  | String " " rest => one_digit rest
  | _ => None
  end.

(** [%m]: the group [1[0-2]|0[1-9]|[1-9]]. *)
Definition re_m : list alternative :=
  [two_digits 1 1 0 2; two_digits 0 0 1 9; one_digit].

(** [%d]: the group [3[0-1]|[1-2]\d|0[1-9]|[1-9]| [1-9]]. *)
Definition re_d : list alternative :=
  [two_digits 3 3 0 1; two_digits 1 2 0 9; two_digits 0 0 1 9;
   one_digit; space_digit].

(** A literal character of the format. *)
Definition literal {B : Type} (c : ascii) (k : string -> option B)
    (s : string) : option B :=
  match s with
  | String c' rest => if Ascii.eqb c c' then k rest else None
  | EmptyString => None
  end.

(** [%Y]: the group [\d\d\d\d]. *)
Definition re_Y {B : Type} (k : N -> string -> option B) (s : string) : option B :=
  match s with
  | String c1 (String c2 (String c3 (String c4 rest))) =>
      match digit_val c1, digit_val c2, digit_val c3, digit_val c4 with
      | Some d1, Some d2, Some d3, Some d4 =>
          k (1000 * d1 + 100 * d2 + 10 * d3 + d4) rest
      | _, _, _, _ => None
      end
  | _ => None
  end.

(** [datetime.strptime(s, "%Y-%m-%d")], [None] standing for [ValueError].
    The format is matched as the regular expression
    [(\d\d\d\d)-(1[0-2]|0[1-9]|[1-9])-(3[0-1]|[1-2]\d|0[1-9]|[1-9]| [1-9])];
    input left over after the match is an error, and so is a date that does
    not exist (year 0, a day past the end of the month).  Digits are the
    ASCII ones. *)
Definition strptime_Ymd (s : string) : option (N * N * N) :=
  match
    re_Y (fun y => literal "-" (first_match re_m (fun m => literal "-"
      (first_match re_d (fun d rest => Some (y, m, d, rest))))) ) s
  with
  | Some (y, m, d, rest) =>
      if negb (truthy rest) && (1 <=? y) && (d <=? days_in_month y m)
      then Some (y, m, d) else None
  | None => None
  end.

End Py.

(** ** The store: BSON object ids, documents, queries *)

Module Bson.

(** [bytes.fromhex(s)]: two hexadecimal digits per byte, white space between
    bytes skipped; [None] stands for [ValueError]. *)
Fixpoint fromhex (s : string) : option (list N) :=
  match s with
  | EmptyString => Some []
  | String c rest =>
      if Py.is_space c then fromhex rest
      else
        match rest with
        | String d rest' =>
            match Py.hex_val c, Py.hex_val d with
            | Some h, Some l => cons (16 * h + l) <$> fromhex rest'
            | _, _ => None
            end
        | EmptyString => None
        end
  end.

(** [bytes.hex()]: two lower-case digits per byte. *)
Fixpoint hexlify (bs : list N) : string :=
  match bs with
  | [] => ""
  | b :: bs' =>
      String (Py.hex_digit (b / 16)) (String (Py.hex_digit (b mod 16)) (hexlify bs'))
  end.

(** A [bson.ObjectId]: its binary value. *)
Inductive ObjectId := mkObjectId (binary : list N).

Definition binary (o : ObjectId) : list N :=
  match o with mkObjectId bs => bs end.

#[global] Instance ObjectId_eq_dec : EqDecision ObjectId.
Proof. solve_decision. Defined.

(** [ObjectId(s)] for a [str]: a string of 24 characters that [fromhex]
    accepts; anything else raises [InvalidId], here [None]. *)
Definition ObjectId_of_str (s : string) : option ObjectId :=
  if Nat.eqb (Py.len s) 24 then mkObjectId <$> fromhex s else None.

(** [str(oid)]. *)
Definition str (o : ObjectId) : string := hexlify (binary o).

End Bson.

Export Bson.

(** A stored announcement: the [_id] the store keeps for it and its other
    fields.  Every field this module writes is a string. *)
Record document := {
  _id : ObjectId;
  fields : gmap string string
}.

#[global] Instance document_eq_dec : EqDecision document.
Proof. solve_decision. Defined.

(** The operators the queries of this module use on a field. *)
Inductive cond :=
  | op_exists (b : bool)   (* {"$exists": b} *)
  | op_is (v : string)     (* equality with a value *)
  | op_gte (v : string)    (* {"$gte": v} *)
  | op_lte (v : string).   (* {"$lte": v} *)

#[local] Set Warnings "-register-all".

(** Query documents: a condition on a field, a match on [_id], [$or], and
    the conjunction of the entries of one dictionary. *)
Inductive query :=
  | q_field (k : string) (c : cond)
  | q_id (o : ObjectId)
  | q_or (qs : list query)
  | q_all (qs : list query).

Definition holds (c : cond) (v : option string) : bool :=
  match c, v with
  | op_exists b, _ => Bool.eqb (bool_decide (is_Some v)) b
  | op_is x, Some y => String.eqb x y
  | op_gte x, Some y => (x <=? y)%string
  | op_lte x, Some y => (y <=? x)%string
  | _, None => false
  end.

Fixpoint matches (q : query) (d : document) : bool :=
  match q with
  | q_field k c => holds c (fields d !! k)
  | q_id o => bool_decide (_id d = o)
  | q_or qs => existsb (fun q' => matches q' d) qs
  | q_all qs => forallb (fun q' => matches q' d) qs
  end.

Arguments matches : simpl never.

(** [cursor.sort(k, -1)]: descending on field [k]; a document without the
    field sorts as the smallest.  Documents with equal keys keep their
    order. *)
Definition key_ltb (a b : option string) : bool :=
  match a, b with
  | _, None => false
  | None, Some _ => true
  | Some x, Some y => (x <? y)%string
  end.

Fixpoint insert_desc (k : string) (d : document) (l : list document) : list document :=
  match l with
  | [] => [d]
  | e :: l' =>
      if key_ltb (fields d !! k) (fields e !! k)
      then e :: insert_desc k d l'
      else d :: l
  end.

Definition sort_desc (k : string) (l : list document) : list document :=
  foldr (insert_desc k) [] l.

(** [update_one(q, {"$set": upd})] on the documents: the first match gets
    the fields of [upd]; the others are left as they are. *)
Fixpoint set_first (q : query) (upd : gmap string string) (l : list document)
    : list document :=
  match l with
  | [] => []
  | d :: l' =>
      if matches q d
      then {| _id := _id d; fields := upd ∪ fields d |} :: l'
      else d :: set_first q upd l'
  end.

(** [delete_one(q)] on the documents: the first match is removed; the
    result carries [deleted_count]. *)
Fixpoint remove_first (q : query) (l : list document) : list document * N :=
  match l with
  | [] => ([], 0)
  | d :: l' =>
      if matches q d then (l', 1)
      else let '(r, n) := remove_first q l' in (d :: r, n)
  end.

(** The operations the handlers perform on the two collections. *)
Inductive db_op :=
  | teachers_find_one (username : string)
  | announcements_find (q : query)
  | announcements_find_one (q : query)
  | announcements_insert_one (o : ObjectId) (doc : gmap string string)
  | announcements_update_one (q : query) (upd : gmap string string)
  | announcements_delete_one (q : query).

(** The database module: both collections, and the log of the operations
    performed so far.  A teacher is stored under its username as [_id]. *)
Record db := {
  announcements_collection : list document;
  teachers_collection : gmap string (gmap string string);
  oplog : list db_op
}.

(** What a request reads from outside the store: the clock, and the object
    id the driver generates for an inserted document. *)
Record request_env := {
  now : Py.datetime;
  new_id : ObjectId
}.

(** ** Exceptions and the handler monad *)

Inductive exn :=
  | HTTPException (status_code : N) (detail : string)
  | DuplicateKeyError
  | AttributeError.

Inductive outcome (A : Type) :=
  | Returns (a : A)
  | Raises (e : exn).
Arguments Returns {A} a.
Arguments Raises {A} e.

Definition M (A : Type) : Type := db -> outcome A * db.

Definition ret {A : Type} (a : A) : M A := fun s => (Returns a, s).

Definition raise {A : Type} (e : exn) : M A := fun s => (Raises e, s).

Definition bind {A B : Type} (c : M A) (k : A -> M B) : M B := fun s =>
  match c s with
  | (Returns a, s') => k a s'
  | (Raises e, s') => (Raises e, s')
  end.

Declare Scope handler_scope.
Delimit Scope handler_scope with handler.
Notation "x <- c ;; k" := (bind c (fun x => k))
  (at level 100, c at next level, right associativity) : handler_scope.
Notation "c ;;; k" := (bind c (fun _ => k))
  (at level 100, right associativity) : handler_scope.

Definition log (o : db_op) (s : db) : db :=
  {| announcements_collection := announcements_collection s;
     teachers_collection := teachers_collection s;
     oplog := oplog s ++ [o] |}.

Definition with_announcements (l : list document) (s : db) : db :=
  {| announcements_collection := l;
     teachers_collection := teachers_collection s;
     oplog := oplog s |}.

Module teachers.

(** [teachers_collection.find_one({"_id": username})]. *)
Definition find_one (username : string) : M (option (gmap string string)) :=
  fun s => (Returns (teachers_collection s !! username),
            log (teachers_find_one username) s).

End teachers.

Module announcements.

(** [announcements_collection.find(q).sort("created_at", -1)], read to the
    end. *)
Definition find_sorted (q : query) : M (list document) := fun s =>
  (Returns (sort_desc "created_at" (filter (fun d => matches q d = true)
                                       (announcements_collection s))),
   log (announcements_find q) s).

(** [announcements_collection.find_one(q)]. *)
Definition find_one (q : query) : M (option document) := fun s =>
  (Returns (head (filter (fun d => matches q d = true) (announcements_collection s))),
   log (announcements_find_one q) s).

(** [announcements_collection.insert_one(doc)] for a [doc] without [_id]:
    the driver gives it the id it generated, and the store refuses an id it
    already holds.  Returns [inserted_id]. *)
Definition insert_one (o : ObjectId) (doc : gmap string string) : M ObjectId :=
  fun s =>
    let s' := log (announcements_insert_one o doc) s in
    if existsb (matches (q_id o)) (announcements_collection s)
    then (Raises DuplicateKeyError, s')
    else (Returns o,
          with_announcements
            (announcements_collection s ++ [{| _id := o; fields := doc |}]) s').

(** [announcements_collection.update_one(q, {"$set": upd})]. *)
Definition update_one (q : query) (upd : gmap string string) : M unit := fun s =>
  (Returns tt,
   with_announcements (set_first q upd (announcements_collection s))
     (log (announcements_update_one q upd) s)).

(** [announcements_collection.delete_one(q)]; returns [deleted_count]. *)
Definition delete_one (q : query) : M N := fun s =>
  let '(l, n) := remove_first q (announcements_collection s) in
  (Returns n, with_announcements l (log (announcements_delete_one q) s)).

End announcements.

(** ** The endpoints *)

Local Open Scope handler_scope.

(** [_serialize_announcement(doc)]: [doc["id"] = str(doc.pop("_id"))]. *)
Definition _serialize_announcement (doc : document) : gmap string string :=
  <["id" := str (_id doc)]> (fields doc).

(** The query of [get_active_announcements]. *)
Definition active_query (today : string) : query :=
  q_all [
    q_field "expiration_date" (op_gte today);
    q_or [
      q_field "start_date" (op_exists false);
      q_field "start_date" (op_is "");
      q_field "start_date" (op_lte today)
    ]
  ].

(** [find()] without a filter. *)
Definition no_filter : query := q_all [].

Definition authentication_required : exn :=
  HTTPException 401 "Authentication required".

Definition invalid_expiration_date : exn :=
  HTTPException 400 "Invalid expiration_date format. Use YYYY-MM-DD.".

Definition invalid_start_date : exn :=
  HTTPException 400 "Invalid start_date format. Use YYYY-MM-DD.".

Definition invalid_announcement_id : exn :=
  HTTPException 400 "Invalid announcement ID".

Definition announcement_not_found : exn :=
  HTTPException 404 "Announcement not found".

(** The [try: datetime.strptime(v, "%Y-%m-%d") except ValueError: raise e]
    blocks. *)
Definition check_date (v : string) (e : exn) : M unit :=
  match Py.strptime_Ymd v with
  | Some _ => ret tt
  | None => raise e
  end.

(** The dictionary [doc] that [create_announcement] builds. *)
Definition doc_of (env : request_env) (message expiration_date : string)
    (start_date : option string) (teacher_username : string)
    : gmap string string :=
  <["message" := message]>
  (<["expiration_date" := expiration_date]>
  (<["start_date" := Py.or_empty start_date]>
  (<["created_by" := teacher_username]>
  (<["created_at" := Py.isoformat (now env)]> ∅)))).

(** The dictionary [update_data] that [update_announcement] builds. *)
Definition update_data_of (message expiration_date : string)
    (start_date : option string) : gmap string string :=
  <["message" := message]>
  (<["expiration_date" := expiration_date]>
  (<["start_date" := Py.or_empty start_date]> ∅)).

(** The [if start_date: try: ... except ValueError: raise ...] block. *)
Definition check_start_date (start_date : option string) : M unit :=
  match start_date with
  | Some sd => if Py.truthy sd then check_date sd invalid_start_date else ret tt
  | None => ret tt
  end.

(** [GET /announcements]. *)
Definition get_active_announcements (env : request_env)
    : M (list (gmap string string)) :=
  let today := Py.strftime_Ymd (now env) in
  let query := active_query today in
  docs <- announcements.find_sorted query ;;
  ret (map _serialize_announcement docs).

(** [GET /announcements/all]. *)
Definition get_all_announcements (teacher_username : string)
    : M (list (gmap string string)) :=
  teacher <- teachers.find_one teacher_username ;;
  match teacher with
  | None => raise authentication_required
  | Some _ =>
      docs <- announcements.find_sorted no_filter ;;
      ret (map _serialize_announcement docs)
  end.

(** [POST /announcements]. *)
Definition create_announcement (env : request_env)
    (message expiration_date : string) (start_date : option string)
    (teacher_username : string) : M (gmap string string) :=
  teacher <- teachers.find_one teacher_username ;;
  match teacher with
  | None => raise authentication_required
  | Some _ =>
      check_date expiration_date invalid_expiration_date ;;;
      check_start_date start_date ;;;
      let doc := doc_of env message expiration_date start_date teacher_username in
      inserted_id <- announcements.insert_one (new_id env) doc ;;
      ret (<["id" := str inserted_id]> doc)
  end.

(** [PUT /announcements/{announcement_id}]. *)
Definition update_announcement (announcement_id : string)
    (message expiration_date : string) (start_date : option string)
    (teacher_username : string) : M (gmap string string) :=
  teacher <- teachers.find_one teacher_username ;;
  match teacher with
  | None => raise authentication_required
  | Some _ =>
      match ObjectId_of_str announcement_id with
      | None => raise invalid_announcement_id
      | Some obj_id =>
          existing <- announcements.find_one (q_id obj_id) ;;
          match existing with
          | None => raise announcement_not_found
          | Some _ =>
              check_date expiration_date invalid_expiration_date ;;;
              check_start_date start_date ;;;
              let update_data :=
                update_data_of message expiration_date start_date in
              announcements.update_one (q_id obj_id) update_data ;;;
              updated <- announcements.find_one (q_id obj_id) ;;
              match updated with
              | Some doc => ret (_serialize_announcement doc)
              | None => raise AttributeError
              end
          end
      end
  end.

(** [DELETE /announcements/{announcement_id}]. *)
Definition delete_announcement (announcement_id : string)
    (teacher_username : string) : M (gmap string string) :=
  teacher <- teachers.find_one teacher_username ;;
  match teacher with
  | None => raise authentication_required
  | Some _ =>
      match ObjectId_of_str announcement_id with
      | None => raise invalid_announcement_id
      | Some obj_id =>
          deleted_count <- announcements.delete_one (q_id obj_id) ;;
          if deleted_count =? 0 then raise announcement_not_found
          else ret {[ "message" := "Announcement deleted successfully" ]}
      end
  end.

Local Close Scope handler_scope.

(** ** The vocabulary of the specification, and sample data *)

Local Open Scope list_scope.

(** The visibility rule as the specification words it: the expiration date
    is today or later, and the start date is absent, empty, or today or
    earlier; dates are compared as strings. *)
Definition shown_on (today : string) (A : document) : Prop :=
  (∃ e, fields A !! "expiration_date" = Some e ∧ (today <=? e)%string = true)
  ∧ (fields A !! "start_date" = None
     ∨ fields A !! "start_date" = Some ""
     ∨ ∃ sd, fields A !! "start_date" = Some sd ∧ (sd <=? today)%string = true).

(** [A] appears in what a listing returned. *)
Definition appears_in (A : document) (results : list (gmap string string)) : Prop :=
  _serialize_announcement A ∈ results.

(** A call stopped at the authentication gate for [username]: it raised the
    401 error, the only operation it logged is the lookup of the teacher,
    and both collections are as they were. *)
Definition stopped_at_gate {A : Type} (username : string) (s : db)
    (r : outcome A * db) : Prop :=
  r.1 = Raises authentication_required
  ∧ announcements_collection r.2 = announcements_collection s
  ∧ teachers_collection r.2 = teachers_collection s
  ∧ oplog r.2 = oplog s ++ [teachers_find_one username].

(** The record an update leaves in place of [d]. *)
Definition updated (message expiration_date : string) (start_date : option string)
    (d : document) : document :=
  {| _id := _id d;
     fields := update_data_of message expiration_date start_date ∪ fields d |}.

(** The record a create call stores. *)
Definition created (env : request_env) (message expiration_date : string)
    (start_date : option string) (teacher_username : string) : document :=
  {| _id := new_id env;
     fields := doc_of env message expiration_date start_date teacher_username |}.


(** The store keeps one record per [_id]. *)
Definition unique_ids (l : list document) : Prop := NoDup (map _id l).

(** An object id as the driver generates it: twelve bytes. *)
Definition well_formed (o : ObjectId) : Prop :=
  length (binary o) = 12%nat ∧ Forall (λ b, b < 256) (binary o).

(** A record whose dates passed the checks of create and update: the
    expiration date parses, and the start date is empty or parses. *)
Definition well_dated (d : document) : Prop :=
  (∃ e, fields d !! "expiration_date" = Some e ∧ is_Some (Py.strptime_Ymd e))
  ∧ (∃ sd, fields d !! "start_date" = Some sd
           ∧ (sd = "" ∨ is_Some (Py.strptime_Ymd sd))).

(** The supplied start date is acceptable: omitted, empty, or it parses. *)
Definition start_date_ok (start_date : option string) : Prop :=
  ∀ sd, start_date = Some sd → Py.truthy sd = true →
        is_Some (Py.strptime_Ymd sd).

(** What [delete_announcement] returns. *)
Definition deleted_confirmation : gmap string string :=
  {[ "message" := "Announcement deleted successfully" ]}.

Module Sample.

Definition clock : Py.datetime :=
  {| Py.year := 2026; Py.month := 11; Py.day := 3;
     Py.hour := 9; Py.minute := 5; Py.second := 0; Py.microsecond := 12 |}.

Definition oid (last : N) : ObjectId :=
  mkObjectId [1; 2; 3; 4; 5; 6; 7; 8; 9; 10; 11; last].

Definition env : request_env := {| now := clock; new_id := oid 255 |}.

Definition announcement (o : ObjectId) (message expiration start : string)
    : document :=
  {| _id := o;
     fields := <["message" := message]>
               (<["expiration_date" := expiration]>
               (<["start_date" := start]>
               (<["created_by" := "mrodriguez"]>
               (<["created_at" := "2026-10-01T08:00:00"]> ∅)))) |}.

(** Expires today. *)
Definition last_day : document :=
  announcement (oid 1) "Science fair" "2026-11-03" "".

(** Starts next year. *)
Definition upcoming : document :=
  announcement (oid 2) "Spring play" "2099-01-01" "2027-01-01".

(** Expired long ago. *)
Definition expired : document :=
  announcement (oid 3) "Welcome back" "2000-01-01" "1999-12-01".

Definition store : db :=
  {| announcements_collection := [last_day; upcoming; expired];
     teachers_collection := {[ "mrodriguez" := ∅ ]};
     oplog := [] |}.

End Sample.

(** * Properties *)

(** ** The store operations *)

Section store_facts.

Implicit Types (l : list document) (d : document) (q : query) (o : ObjectId).

Lemma insert_desc_perm k d l : insert_desc k d l ≡ₚ d :: l.
Proof.
  induction l as [|e l IH]; simpl; [done|].
  destruct (key_ltb _ _); [|done].
  rewrite IH. apply Permutation_swap.
Qed.

Lemma sort_desc_perm k l : sort_desc k l ≡ₚ l.
Proof.
  induction l as [|d l IH]; simpl; [done|].
  rewrite insert_desc_perm. by rewrite IH.
Qed.

Lemma elem_of_sort_desc k l d : d ∈ sort_desc k l ↔ d ∈ l.
Proof. by rewrite (sort_desc_perm k l). Qed.

Lemma matches_q_id o d : matches (q_id o) d = true ↔ _id d = o.
Proof. simpl. apply bool_decide_eq_true. Qed.

(** What [find_one] answers: the first match splits the collection. *)
Lemma head_filter_Some q l d :
  head (filter (λ x, matches q x = true) l) = Some d →
  ∃ l1 l2, l = l1 ++ d :: l2 ∧ Forall (λ x, matches q x ≠ true) l1
           ∧ matches q d = true.
Proof.
  induction l as [|e l IH]; [done|].
  rewrite filter_cons. destruct (decide (matches q e = true)) as [He|He].
  - simpl. intros [= ->]. exists [], l. by repeat split.
  - intros (l1 & l2 & -> & Hl1 & Hd)%IH.
    exists (e :: l1), l2. repeat split; [|done]. by constructor.
Qed.

Lemma head_filter_None q l :
  head (filter (λ x, matches q x = true) l) = None →
  Forall (λ x, matches q x ≠ true) l.
Proof.
  induction l as [|e l IH]; [by constructor|].
  rewrite filter_cons. destruct (decide (matches q e = true)); [done|].
  intros ?%IH. by constructor.
Qed.

Lemma head_filter_middle q l1 d l2 :
  Forall (λ x, matches q x ≠ true) l1 → matches q d = true →
  head (filter (λ x, matches q x = true) (l1 ++ d :: l2)) = Some d.
Proof.
  induction 1 as [|e l1 He _ IH]; intros Hd; simpl.
  - by rewrite filter_cons_True.
  - rewrite filter_cons_False by done. by apply IH.
Qed.

Lemma set_first_middle q upd l1 d l2 :
  Forall (λ x, matches q x ≠ true) l1 → matches q d = true →
  set_first q upd (l1 ++ d :: l2)
  = l1 ++ {| _id := _id d; fields := upd ∪ fields d |} :: l2.
Proof.
  induction 1 as [|e l1 He _ IH]; intros Hd; simpl.
  - by rewrite Hd.
  - destruct (matches q e); [done|]. by rewrite IH.
Qed.

Lemma remove_first_none q l :
  Forall (λ x, matches q x ≠ true) l → remove_first q l = (l, 0).
Proof.
  induction 1 as [|e l He _ IH]; simpl; [done|].
  destruct (matches q e); [done|]. by rewrite IH.
Qed.

Lemma remove_first_count q l : (remove_first q l).2 = 0 ∨ (remove_first q l).2 = 1.
Proof.
  induction l as [|e l IH]; simpl; [by left|].
  destruct (matches q e); [by right|].
  by destruct (remove_first q l).
Qed.

Lemma remove_first_zero q l :
  (remove_first q l).2 = 0 → Forall (λ x, matches q x ≠ true) l.
Proof.
  induction l as [|e l IH]; simpl; [by constructor|].
  destruct (matches q e) eqn:He; [done|].
  destruct (remove_first q l); simpl in *. intros ?%IH.
  constructor; [congruence|done].
Qed.

Lemma existsb_matches_false q l :
  existsb (matches q) l = false ↔ Forall (λ x, matches q x ≠ true) l.
Proof.
  induction l as [|e l IH]; simpl.
  - split; [by constructor|done].
  - rewrite orb_false_iff, IH, Forall_cons. by destruct (matches q e); intuition.
Qed.

Lemma no_match_by_id o l :
  Forall (λ x, matches (q_id o) x ≠ true) l ↔ ∀ d, d ∈ l → _id d ≠ o.
Proof.
  rewrite Forall_forall. by setoid_rewrite matches_q_id.
Qed.

End store_facts.

(** ** Serialization *)

Lemma serialize_lookup_id d : _serialize_announcement d !! "id" = Some (str (_id d)).
Proof. apply lookup_insert_eq. Qed.

Lemma serialize_lookup_ne d k :
  k ≠ "id" → _serialize_announcement d !! k = fields d !! k.
Proof. intros. unfold _serialize_announcement. by rewrite lookup_insert_ne. Qed.

(** ** The public listing *)

Lemma holds_gte today v :
  holds (op_gte today) v = true ↔ ∃ e, v = Some e ∧ (today <=? e)%string = true.
Proof.
  destruct v as [e|]; simpl.
  - split; [by exists e|]. by intros (? & [= <-] & ?).
  - split; [done|]. by intros (? & ? & _).
Qed.

Lemma holds_start today v :
  holds (op_exists false) v || (holds (op_is "") v || holds (op_lte today) v) = true
  ↔ v = None ∨ v = Some ""
    ∨ ∃ sd, v = Some sd ∧ (sd <=? today)%string = true.
Proof.
  destruct v as [sd|]; [|by split; [left|]].
  change (holds (op_exists false) (Some sd)) with false.
  change (holds (op_is "") (Some sd)) with (String.eqb "" sd).
  change (holds (op_lte today) (Some sd)) with (sd <=? today)%string.
  rewrite orb_false_l, orb_true_iff, String.eqb_eq. split.
  - intros [<-|Hle]; [by right; left|]. right; right. by exists sd.
  - intros [|[[= <-]|(? & [= <-] & ?)]]; [done|by left|by right].
Qed.

Lemma matches_active_query today d :
  matches (active_query today) d = true ↔ shown_on today d.
Proof.
  unfold shown_on. rewrite <-holds_gte, <-holds_start.
  change (matches (active_query today) d)
    with (holds (op_gte today) (fields d !! "expiration_date")
          && ((holds (op_exists false) (fields d !! "start_date")
               || (holds (op_is "") (fields d !! "start_date")
                   || (holds (op_lte today) (fields d !! "start_date") || false)))
              && true)).
  by rewrite andb_true_r, orb_false_r, andb_true_iff.
Qed.

(** The rule looks at two fields only, neither of which serialization
    touches. *)
Lemma shown_on_serialize today A B :
  _serialize_announcement A = _serialize_announcement B →
  shown_on today A → shown_on today B.
Proof.
  intros Heq. unfold shown_on.
  rewrite <-!(serialize_lookup_ne A), <-!(serialize_lookup_ne B) by done.
  by rewrite Heq.
Qed.

Lemma get_active_announcements_run env s :
  get_active_announcements env s
  = (Returns (map _serialize_announcement
       (sort_desc "created_at"
          (filter (λ d, matches (active_query (Py.strftime_Ymd (now env))) d = true)
                  (announcements_collection s)))),
     log (announcements_find (active_query (Py.strftime_Ymd (now env)))) s).
Proof. reflexivity. Qed.

Lemma appears_in_active_iff today l A :
  A ∈ l →
  appears_in A (map _serialize_announcement
                  (sort_desc "created_at"
                     (filter (λ d, matches (active_query today) d = true) l)))
  ↔ shown_on today A.
Proof.
  intros HA. unfold appears_in. rewrite list_elem_of_In, in_map_iff. split.
  - intros (B & Heq & HB).
    apply list_elem_of_In, elem_of_sort_desc, list_elem_of_filter in HB as [HB _].
    apply matches_active_query in HB. by apply (shown_on_serialize _ B A).
  - intros Hshown. exists A. split; [done|].
    apply list_elem_of_In, elem_of_sort_desc, list_elem_of_filter.
    split; [by apply matches_active_query|done].
Qed.

(** C1. For every stored announcement A and every call of the public
    listing, the call returns, and A appears in what it returns if and only
    if A's expiration date is today or later and A's start date is absent,
    empty, or today or earlier; today is the date of the clock at the call,
    in YYYY-MM-DD form, and dates are compared as strings. *)
Theorem list_active_iff_shown env s A :
  A ∈ announcements_collection s →
  ∃ results s',
    get_active_announcements env s = (Returns results, s')
    ∧ (appears_in A results ↔ shown_on (Py.strftime_Ymd (now env)) A).
Proof.
  intros HA. eexists _, _. split; [apply get_active_announcements_run|].
  by apply appears_in_active_iff.
Qed.

Lemma list_active_iff_shown_witness :
  ∃ results s',
    get_active_announcements Sample.env Sample.store = (Returns results, s')
    ∧ (appears_in Sample.upcoming results ↔ shown_on "2026-11-03" Sample.upcoming).
Proof.
  apply (list_active_iff_shown Sample.env Sample.store Sample.upcoming).
  apply elem_of_cons. right. apply elem_of_cons. by left.
Defined.

Lemma string_ltb_not_leb (a b : string) :
  (a <? b)%string = true → (b <=? a)%string = false.
Proof.
  unfold String.ltb, String.leb. rewrite (String.compare_antisym a b).
  by destruct (String.compare b a).
Qed.

(** Once the expiration date is past, the announcement is no longer
    listed. *)
Lemma list_active_hides_expired env s A e :
  A ∈ announcements_collection s →
  fields A !! "expiration_date" = Some e →
  (e <? Py.strftime_Ymd (now env))%string = true →
  ∃ results s',
    get_active_announcements env s = (Returns results, s')
    ∧ ¬ appears_in A results.
Proof.
  intros HA He Hlt.
  eexists _, _. split; [apply get_active_announcements_run|].
  rewrite appears_in_active_iff by done. intros [(e' & He' & Hle) _].
  rewrite He in He'. injection He' as <-.
  apply string_ltb_not_leb in Hlt. congruence.
Qed.

(** C2. On the expiration date itself the public listing still returns the
    announcement: with the clock at 2026-11-03, an announcement whose
    expiration date is 2026-11-03 appears in the result. *)
Theorem list_active_shows_on_expiration_date :
  Sample.last_day ∈ announcements_collection Sample.store
  ∧ fields Sample.last_day !! "expiration_date"
    = Some (Py.strftime_Ymd (now Sample.env))
  ∧ ∃ results s',
      get_active_announcements Sample.env Sample.store = (Returns results, s')
      ∧ appears_in Sample.last_day results.
Proof.
  assert (Hin : Sample.last_day ∈ announcements_collection Sample.store)
    by (apply elem_of_cons; by left).
  split; [done|]. split; [by vm_compute|].
  eexists _, _. split; [apply get_active_announcements_run|].
  apply appears_in_active_iff; [done|]. split.
  - exists "2026-11-03". split; by vm_compute.
  - right; left. by vm_compute.
Qed.

(** ** The authentication gate *)

(** C3. When the username is not in the teacher directory, create, update,
    delete and the full listing all raise the authentication error, whatever
    their other arguments are; the only operation performed is the lookup of
    the teacher, and the announcement store is unchanged. *)
Theorem unknown_teacher_stopped_at_gate s username :
  teachers_collection s !! username = None →
  (∀ env message expiration_date start_date,
     stopped_at_gate username s
       (create_announcement env message expiration_date start_date username s))
  ∧ (∀ announcement_id message expiration_date start_date,
       stopped_at_gate username s
         (update_announcement announcement_id message expiration_date
            start_date username s))
  ∧ (∀ announcement_id,
       stopped_at_gate username s (delete_announcement announcement_id username s))
  ∧ stopped_at_gate username s (get_all_announcements username s).
Proof.
  intros Hnone.
  unfold stopped_at_gate, create_announcement, update_announcement,
    delete_announcement, get_all_announcements, bind, teachers.find_one.
  rewrite Hnone. by repeat split.
Qed.

Lemma unknown_teacher_stopped_at_gate_witness :
  stopped_at_gate "ghost" Sample.store
    (create_announcement Sample.env "Hello" "not a date" None "ghost" Sample.store)
  ∧ stopped_at_gate "ghost" Sample.store
      (update_announcement "not-a-valid-key" "Hello" "2099-01-01" None "ghost"
         Sample.store)
  ∧ stopped_at_gate "ghost" Sample.store
      (delete_announcement "0102030405060708090a0b01" "ghost" Sample.store)
  ∧ stopped_at_gate "ghost" Sample.store
      (get_all_announcements "ghost" Sample.store).
Proof.
  assert (Hghost : teachers_collection Sample.store !! "ghost" = None)
    by (by vm_compute).
  destruct (unknown_teacher_stopped_at_gate Sample.store "ghost" Hghost)
    as (Hcreate & Hupdate & Hdelete & Hall).
  repeat split; first [apply Hcreate | apply Hupdate | apply Hdelete | apply Hall].
Defined.

(** ** Update *)

(** The date checks read the state and leave it alone. *)
Lemma check_date_run v e s :
  check_date v e s
  = (if Py.strptime_Ymd v is Some _ then Returns tt else Raises e, s).
Proof. unfold check_date. by destruct (Py.strptime_Ymd v). Qed.

Lemma check_start_date_run start_date s :
  check_start_date start_date s = (Returns tt, s)
  ∨ check_start_date start_date s = (Raises invalid_start_date, s).
Proof.
  unfold check_start_date. destruct start_date as [sd|]; [|by left].
  destruct (Py.truthy sd); [|by left].
  rewrite check_date_run. destruct (Py.strptime_Ymd sd); [by left|by right].
Qed.

Lemma check_start_date_ok start_date s :
  (∀ sd, start_date = Some sd → Py.truthy sd = true →
         is_Some (Py.strptime_Ymd sd)) →
  check_start_date start_date s = (Returns tt, s).
Proof.
  intros Hsd. unfold check_start_date.
  destruct start_date as [sd|]; [|done].
  destruct (Py.truthy sd) eqn:Htruthy; [|done].
  rewrite check_date_run. by destruct (Hsd sd eq_refl Htruthy) as [ymd ->].
Qed.

(** What a returning update did: the teacher is known, the id is a key, the
    first record [d] under that key is replaced by [updated ... d], nothing
    else in the store moves, and the replacement is what is returned. *)
Lemma update_returns announcement_id message expiration_date start_date
    teacher_username s r s' :
  update_announcement announcement_id message expiration_date start_date
    teacher_username s = (Returns r, s') →
  ∃ obj_id l1 d l2,
    is_Some (teachers_collection s !! teacher_username)
    ∧ ObjectId_of_str announcement_id = Some obj_id
    ∧ announcements_collection s = l1 ++ d :: l2
    ∧ (∀ x, x ∈ l1 → _id x ≠ obj_id)
    ∧ _id d = obj_id
    ∧ announcements_collection s'
      = l1 ++ updated message expiration_date start_date d :: l2
    ∧ teachers_collection s' = teachers_collection s
    ∧ r = _serialize_announcement (updated message expiration_date start_date d).
Proof.
  unfold update_announcement, bind, teachers.find_one, announcements.find_one,
    announcements.update_one, check_date, ret, raise.
  destruct (teachers_collection s !! teacher_username) as [t|] eqn:Ht; [|done].
  destruct (ObjectId_of_str announcement_id) as [obj_id|] eqn:Hid; [|done].
  simpl.
  destruct (head _) as [d|] eqn:Hhead; [|done].
  apply head_filter_Some in Hhead as (l1 & l2 & Hl & Hl1 & Hd).
  destruct (Py.strptime_Ymd expiration_date); [|done].
  destruct (check_start_date_run start_date
              (log (announcements_find_one (q_id obj_id))
                 (log (teachers_find_one teacher_username) s)))
    as [-> | ->]; [|done].
  simpl. rewrite Hl, set_first_middle by done.
  rewrite head_filter_middle; [|done|by rewrite matches_q_id in *].
  intros [= <- <-]. exists obj_id, l1, d, l2.
  split; [by eexists|]. split; [done|]. split; [done|].
  split; [by apply no_match_by_id|]. split; [by apply matches_q_id in Hd|].
  done.
Qed.

(** An update with a known teacher and a malformed id stops right after the
    gate, with the 400 error. *)
Lemma update_malformed_id_run announcement_id message expiration_date start_date
    teacher_username s :
  is_Some (teachers_collection s !! teacher_username) →
  ObjectId_of_str announcement_id = None →
  update_announcement announcement_id message expiration_date start_date
    teacher_username s
  = (Raises invalid_announcement_id, log (teachers_find_one teacher_username) s).
Proof.
  intros [t Ht] Hid. unfold update_announcement, bind, teachers.find_one.
  by rewrite Ht, Hid.
Qed.

(** An update with a known teacher and a well-formed id that no record has
    stops at the existence check, with the 404 error. *)
Lemma update_unknown_id_run announcement_id obj_id message expiration_date
    start_date teacher_username s :
  is_Some (teachers_collection s !! teacher_username) →
  ObjectId_of_str announcement_id = Some obj_id →
  (∀ d, d ∈ announcements_collection s → _id d ≠ obj_id) →
  update_announcement announcement_id message expiration_date start_date
    teacher_username s
  = (Raises announcement_not_found,
     log (announcements_find_one (q_id obj_id))
       (log (teachers_find_one teacher_username) s)).
Proof.
  intros [t Ht] Hid Hnone.
  unfold update_announcement, bind, teachers.find_one, announcements.find_one.
  rewrite Ht, Hid. simpl.
  apply no_match_by_id in Hnone.
  destruct (head _) as [d|] eqn:Hhead; [|done].
  apply head_filter_Some in Hhead as (l1 & l2 & Hl & _ & Hd).
  rewrite Hl in Hnone. apply Forall_app in Hnone as [_ Hnone].
  by apply Forall_cons in Hnone as [? _].
Qed.

(** A date error from update means the existence check was passed. *)
Lemma update_date_error_inv announcement_id message expiration_date start_date
    teacher_username s e :
  (update_announcement announcement_id message expiration_date start_date
     teacher_username s).1 = Raises e →
  e = invalid_expiration_date ∨ e = invalid_start_date →
  ∃ obj_id d,
    ObjectId_of_str announcement_id = Some obj_id
    ∧ d ∈ announcements_collection s ∧ _id d = obj_id.
Proof.
  unfold update_announcement, bind, teachers.find_one, announcements.find_one.
  destruct (teachers_collection s !! teacher_username) as [t|];
    [|by intros [= <-] [|]].
  destruct (ObjectId_of_str announcement_id) as [obj_id|];
    [|by intros [= <-] [|]].
  simpl. destruct (head _) as [d|] eqn:Hhead; [|by intros [= <-] [|]].
  apply head_filter_Some in Hhead as (l1 & l2 & Hl & _ & Hd).
  intros _ _. exists obj_id, d. split; [done|].
  split; [|by apply matches_q_id].
  rewrite Hl. apply elem_of_app. right. by left.
Qed.

(** C4. In an update by a known teacher, the target record is looked up
    before the dates are checked: a well-formed id that no record has gives
    the not-found error whatever the date fields are, and a malformed-date
    error is raised only when the id is well formed and a record has it. *)
Theorem update_checks_existence_before_dates announcement_id message
    expiration_date start_date teacher_username s :
  is_Some (teachers_collection s !! teacher_username) →
  (∀ obj_id,
     ObjectId_of_str announcement_id = Some obj_id →
     (∀ d, d ∈ announcements_collection s → _id d ≠ obj_id) →
     (update_announcement announcement_id message expiration_date start_date
        teacher_username s).1 = Raises announcement_not_found)
  ∧ ((update_announcement announcement_id message expiration_date start_date
        teacher_username s).1 = Raises invalid_expiration_date
     ∨ (update_announcement announcement_id message expiration_date start_date
          teacher_username s).1 = Raises invalid_start_date →
     ∃ obj_id d,
       ObjectId_of_str announcement_id = Some obj_id
       ∧ d ∈ announcements_collection s ∧ _id d = obj_id).
Proof.
  intros Ht. split.
  - intros obj_id Hid Hnone.
    by rewrite (update_unknown_id_run _ obj_id).
  - intros [He|He]; eapply update_date_error_inv; eauto.
Qed.

(** C5 (as the code has it). In an update by a known teacher, an id that is
    not a well-formed store key gives the invalid-identifier error, status
    400; no announcement is looked up and the store is unchanged. *)
Theorem update_malformed_id_is_invalid announcement_id message expiration_date
    start_date teacher_username s :
  is_Some (teachers_collection s !! teacher_username) →
  ObjectId_of_str announcement_id = None →
  ∃ s',
    update_announcement announcement_id message expiration_date start_date
      teacher_username s
    = (Raises (HTTPException 400 "Invalid announcement ID"), s')
    ∧ announcements_collection s' = announcements_collection s
    ∧ oplog s' = oplog s ++ [teachers_find_one teacher_username].
Proof.
  intros Ht Hid. eexists. split; [by apply update_malformed_id_run|done].
Qed.

(** A delete with a known teacher and a malformed id stops right after the
    gate, with the 400 error. *)
Lemma delete_malformed_id_run announcement_id teacher_username s :
  is_Some (teachers_collection s !! teacher_username) →
  ObjectId_of_str announcement_id = None →
  delete_announcement announcement_id teacher_username s
  = (Raises invalid_announcement_id, log (teachers_find_one teacher_username) s).
Proof.
  intros [t Ht] Hid. unfold delete_announcement, bind, teachers.find_one.
  by rewrite Ht, Hid.
Qed.

(** A delete with a known teacher and a well-formed id that no record has
    removes nothing and raises the 404 error. *)
Lemma delete_unknown_id_run announcement_id obj_id teacher_username s :
  is_Some (teachers_collection s !! teacher_username) →
  ObjectId_of_str announcement_id = Some obj_id →
  (∀ d, d ∈ announcements_collection s → _id d ≠ obj_id) →
  (delete_announcement announcement_id teacher_username s).1
  = Raises announcement_not_found
  ∧ announcements_collection
      (delete_announcement announcement_id teacher_username s).2
    = announcements_collection s.
Proof.
  intros [t Ht] Hid Hnone.
  unfold delete_announcement, bind, teachers.find_one, announcements.delete_one.
  rewrite Ht, Hid. simpl.
  apply no_match_by_id in Hnone. by rewrite (remove_first_none _ _ Hnone).
Qed.

Lemma sample_teacher_known :
  is_Some (teachers_collection Sample.store !! "mrodriguez").
Proof. by eexists. Qed.

Lemma sample_id_unused n :
  3 < n →
  ∀ d, d ∈ announcements_collection Sample.store → _id d ≠ Sample.oid n.
Proof.
  intros Hn d Hd Heq.
  apply list_elem_of_In in Hd. simpl in Hd.
  destruct Hd as [<-|[<-|[<-|[]]]]; injection Heq as <-; lia.
Qed.

Lemma update_checks_existence_before_dates_witness :
  (update_announcement "0102030405060708090a0b09" "Hello" "31/12/2026"
     (Some "tomorrow") "mrodriguez" Sample.store).1
  = Raises announcement_not_found.
Proof.
  apply (update_checks_existence_before_dates "0102030405060708090a0b09"
           "Hello" "31/12/2026" (Some "tomorrow") "mrodriguez" Sample.store
           sample_teacher_known) with (obj_id := Sample.oid 9).
  - reflexivity.
  - apply sample_id_unused. lia.
Defined.

Lemma update_malformed_id_is_invalid_witness :
  ∃ s',
    update_announcement "not-a-valid-key" "Hello" "2099-01-01" None
      "mrodriguez" Sample.store
    = (Raises (HTTPException 400 "Invalid announcement ID"), s')
    ∧ announcements_collection s' = announcements_collection Sample.store
    ∧ oplog s' = oplog Sample.store ++ [teachers_find_one "mrodriguez"].
Proof.
  apply (update_malformed_id_is_invalid "not-a-valid-key" "Hello" "2099-01-01"
           None "mrodriguez" Sample.store sample_teacher_known).
  reflexivity.
Defined.

(** C5, as stated, fails: a known teacher updating with the id
    [not-a-valid-key], which is not a well-formed key, does not get the
    not-found error. *)
Lemma update_malformed_id_not_found_fails :
  is_Some (teachers_collection Sample.store !! "mrodriguez")
  ∧ ObjectId_of_str "not-a-valid-key" = None
  ∧ (update_announcement "not-a-valid-key" "Hello" "2099-01-01" None
       "mrodriguez" Sample.store).1
    ≠ Raises announcement_not_found.
Proof.
  split; [apply sample_teacher_known|]. split; [reflexivity|].
  rewrite update_malformed_id_run by (apply sample_teacher_known || reflexivity).
  simpl. unfold invalid_announcement_id, announcement_not_found. congruence.
Qed.

(** C6. For update and delete by a known teacher, a malformed id gives the
    invalid-identifier error (status 400) and a well-formed id that no
    record has gives the not-found error (status 404); the two errors are
    different, and [not-a-valid-key] is a malformed id. *)
Theorem malformed_id_and_unknown_id_differ announcement_id message
    expiration_date start_date teacher_username s :
  is_Some (teachers_collection s !! teacher_username) →
  (ObjectId_of_str announcement_id = None →
     (update_announcement announcement_id message expiration_date start_date
        teacher_username s).1
     = Raises (HTTPException 400 "Invalid announcement ID")
     ∧ (delete_announcement announcement_id teacher_username s).1
       = Raises (HTTPException 400 "Invalid announcement ID"))
  ∧ (∀ obj_id,
       ObjectId_of_str announcement_id = Some obj_id →
       (∀ d, d ∈ announcements_collection s → _id d ≠ obj_id) →
       (update_announcement announcement_id message expiration_date start_date
          teacher_username s).1
       = Raises (HTTPException 404 "Announcement not found")
       ∧ (delete_announcement announcement_id teacher_username s).1
         = Raises (HTTPException 404 "Announcement not found"))
  ∧ HTTPException 400 "Invalid announcement ID"
    ≠ HTTPException 404 "Announcement not found"
  ∧ ObjectId_of_str "not-a-valid-key" = None.
Proof.
  intros Ht. split; [|split; [|split; [congruence|reflexivity]]].
  - intros Hid.
    by rewrite update_malformed_id_run, delete_malformed_id_run.
  - intros obj_id Hid Hnone.
    rewrite (update_unknown_id_run _ obj_id) by done.
    split; [done|]. by apply (delete_unknown_id_run _ obj_id).
Qed.

Lemma malformed_id_and_unknown_id_differ_witness :
  ((update_announcement "not-a-valid-key" "Hello" "2099-01-01" None
      "mrodriguez" Sample.store).1
   = Raises (HTTPException 400 "Invalid announcement ID")
   ∧ (delete_announcement "not-a-valid-key" "mrodriguez" Sample.store).1
     = Raises (HTTPException 400 "Invalid announcement ID"))
  ∧ ((update_announcement "0102030405060708090a0b09" "Hello" "2099-01-01" None
        "mrodriguez" Sample.store).1
     = Raises (HTTPException 404 "Announcement not found")
     ∧ (delete_announcement "0102030405060708090a0b09" "mrodriguez"
          Sample.store).1
       = Raises (HTTPException 404 "Announcement not found")).
Proof.
  split.
  - apply (malformed_id_and_unknown_id_differ "not-a-valid-key" "Hello"
             "2099-01-01" None "mrodriguez" Sample.store sample_teacher_known).
    reflexivity.
  - apply (malformed_id_and_unknown_id_differ "0102030405060708090a0b09" "Hello"
             "2099-01-01" None "mrodriguez" Sample.store sample_teacher_known)
      with (obj_id := Sample.oid 9).
    + reflexivity.
    + apply sample_id_unused. lia.
Defined.

(** ** Create *)

(** What a returning create did: the teacher is known, the expiration date
    parses, the generated id was free, and the new record went to the end of
    the collection; its serialization is what is returned. *)
Lemma create_returns env message expiration_date start_date teacher_username
    s r s' :
  create_announcement env message expiration_date start_date teacher_username s
  = (Returns r, s') →
  is_Some (teachers_collection s !! teacher_username)
  ∧ is_Some (Py.strptime_Ymd expiration_date)
  ∧ (∀ d, d ∈ announcements_collection s → _id d ≠ new_id env)
  ∧ announcements_collection s'
    = announcements_collection s
      ++ [created env message expiration_date start_date teacher_username]
  ∧ teachers_collection s' = teachers_collection s
  ∧ r = _serialize_announcement
          (created env message expiration_date start_date teacher_username).
Proof.
  unfold create_announcement, bind, teachers.find_one, announcements.insert_one,
    check_date, ret, raise.
  destruct (teachers_collection s !! teacher_username) as [t|] eqn:Ht; [|done].
  destruct (Py.strptime_Ymd expiration_date) as [ymd|]; [|done].
  destruct (check_start_date_run start_date
              (log (teachers_find_one teacher_username) s)) as [-> | ->];
    [|done].
  simpl. destruct (existsb _ _) eqn:Hdup; [done|].
  apply existsb_matches_false in Hdup.
  pose proof (proj1 (no_match_by_id _ _) Hdup) as Hfree.
  intros [= <- <-]. by repeat split; try by eexists.
Qed.

(** A create call by a known teacher with well-formed dates and a free id
    returns. *)
Lemma create_succeeds env message expiration_date start_date teacher_username s :
  is_Some (teachers_collection s !! teacher_username) →
  is_Some (Py.strptime_Ymd expiration_date) →
  (∀ sd, start_date = Some sd → Py.truthy sd = true →
         is_Some (Py.strptime_Ymd sd)) →
  (∀ d, d ∈ announcements_collection s → _id d ≠ new_id env) →
  ∃ r s',
    create_announcement env message expiration_date start_date teacher_username s
    = (Returns r, s').
Proof.
  intros [t Ht] [ymd He] Hsd Hfree.
  unfold create_announcement, bind, teachers.find_one, announcements.insert_one,
    check_date, ret, raise.
  rewrite Ht, He, check_start_date_ok by done.
  apply no_match_by_id, existsb_matches_false in Hfree.
  simpl. rewrite Hfree. by eexists _, _.
Qed.

(** C7. When create returns, the record it persisted has [created_by] equal
    to the teacher username given, [created_at] equal to the clock reading
    of the call in ISO form, and [start_date] equal to the empty string when
    none was supplied; the record carries an id no earlier record has, it is
    the one the store finds under that id, and the value returned is that
    record serialized, with its id. *)
Theorem create_persists_and_returns_record env message expiration_date
    start_date teacher_username s r s' :
  create_announcement env message expiration_date start_date teacher_username s
  = (Returns r, s') →
  ∃ stored,
    announcements_collection s' = announcements_collection s ++ [stored]
    ∧ (∀ d, d ∈ announcements_collection s → _id d ≠ _id stored)
    ∧ head (filter (λ d, matches (q_id (_id stored)) d = true)
              (announcements_collection s')) = Some stored
    ∧ fields stored !! "created_by" = Some teacher_username
    ∧ fields stored !! "created_at" = Some (Py.isoformat (now env))
    ∧ fields stored !! "message" = Some message
    ∧ fields stored !! "expiration_date" = Some expiration_date
    ∧ (start_date = None ∨ start_date = Some "" →
       fields stored !! "start_date" = Some "")
    ∧ (∀ sd, start_date = Some sd → fields stored !! "start_date" = Some sd)
    ∧ r = _serialize_announcement stored
    ∧ r !! "id" = Some (str (_id stored)).
Proof.
  intros (Ht & He & Hfree & Hcoll & _ & ->)%create_returns.
  exists (created env message expiration_date start_date teacher_username).
  split; [done|]. split; [done|]. split.
  { rewrite Hcoll. apply head_filter_middle; [by apply no_match_by_id|].
    by apply matches_q_id. }
  split; [done|]. split; [done|]. split; [done|]. split; [done|].
  split; [by intros [->| ->]|]. split.
  { intros sd ->. simpl. unfold doc_of.
    rewrite !lookup_insert_ne, lookup_insert_eq by done. by destruct sd. }
  split; [done|]. apply serialize_lookup_id.
Qed.

Lemma create_persists_and_returns_record_witness :
  ∃ stored,
    announcements_collection
      (create_announcement Sample.env "Bake sale" "2099-01-01" None "mrodriguez"
         Sample.store).2
    = announcements_collection Sample.store ++ [stored]
    ∧ fields stored !! "created_by" = Some "mrodriguez"
    ∧ fields stored !! "created_at" = Some "2026-11-03T09:05:00.000012"
    ∧ fields stored !! "start_date" = Some "".
Proof.
  destruct (create_persists_and_returns_record Sample.env "Bake sale"
              "2099-01-01" None "mrodriguez" Sample.store _ _ eq_refl)
    as (stored & Hcoll & _ & _ & Hby & Hat & _ & _ & Hsd & _).
  exists stored. split; [done|]. split; [done|].
  split; [by rewrite Hat|]. apply Hsd. by left.
Defined.

(** ** What update writes *)

Lemma update_data_of_message message expiration_date start_date :
  update_data_of message expiration_date start_date !! "message" = Some message.
Proof. apply lookup_insert_eq. Qed.

Lemma update_data_of_expiration_date message expiration_date start_date :
  update_data_of message expiration_date start_date !! "expiration_date"
  = Some expiration_date.
Proof.
  unfold update_data_of. rewrite lookup_insert_ne by done. apply lookup_insert_eq.
Qed.

Lemma update_data_of_start_date message expiration_date start_date :
  update_data_of message expiration_date start_date !! "start_date"
  = Some (Py.or_empty start_date).
Proof.
  unfold update_data_of. rewrite !lookup_insert_ne by done. apply lookup_insert_eq.
Qed.

Lemma update_data_of_other message expiration_date start_date k :
  k ≠ "message" → k ≠ "expiration_date" → k ≠ "start_date" →
  update_data_of message expiration_date start_date !! k = None.
Proof.
  intros. unfold update_data_of. rewrite !lookup_insert_ne by done.
  apply lookup_empty.
Qed.

Lemma updated_lookup_set message expiration_date start_date d k v :
  update_data_of message expiration_date start_date !! k = Some v →
  fields (updated message expiration_date start_date d) !! k = Some v.
Proof. intros. by apply lookup_union_Some_l. Qed.

Lemma updated_lookup_other message expiration_date start_date d k :
  k ≠ "message" → k ≠ "expiration_date" → k ≠ "start_date" →
  fields (updated message expiration_date start_date d) !! k = fields d !! k.
Proof.
  intros. simpl. apply lookup_union_r. by apply update_data_of_other.
Qed.

(** An update by a known teacher of a record that exists, with well-formed
    dates, returns. *)
Lemma update_succeeds announcement_id obj_id message expiration_date start_date
    teacher_username s d :
  is_Some (teachers_collection s !! teacher_username) →
  ObjectId_of_str announcement_id = Some obj_id →
  d ∈ announcements_collection s → _id d = obj_id →
  is_Some (Py.strptime_Ymd expiration_date) →
  (∀ sd, start_date = Some sd → Py.truthy sd = true →
         is_Some (Py.strptime_Ymd sd)) →
  ∃ r s',
    update_announcement announcement_id message expiration_date start_date
      teacher_username s = (Returns r, s').
Proof.
  intros [t Ht] Hid Hd Hd_id [ymd He] Hsd.
  unfold update_announcement, bind, teachers.find_one, announcements.find_one,
    announcements.update_one, check_date, ret, raise.
  rewrite Ht, Hid. simpl.
  destruct (head _) as [d0|] eqn:Hhead.
  - apply head_filter_Some in Hhead as (l1 & l2 & Hl & Hl1 & Hd0).
    rewrite He, check_start_date_ok by done. simpl.
    rewrite Hl, set_first_middle by done.
    rewrite head_filter_middle; [|done|by rewrite matches_q_id in *].
    by eexists _, _.
  - apply head_filter_None in Hhead.
    by destruct (proj1 (no_match_by_id _ _) Hhead d).
Qed.

(** C8. When update returns, one record of the store was replaced in place:
    the first one with the given id.  Its [message], [expiration_date] and
    [start_date] are the ones supplied; its id and every other field, among
    them [created_by] and [created_at], are as before; all other records and
    the teacher directory are unchanged. *)
Theorem update_replaces_three_fields_only announcement_id message
    expiration_date start_date teacher_username s r s' :
  update_announcement announcement_id message expiration_date start_date
    teacher_username s = (Returns r, s') →
  ∃ l1 d l2 d',
    announcements_collection s = l1 ++ d :: l2
    ∧ announcements_collection s' = l1 ++ d' :: l2
    ∧ ObjectId_of_str announcement_id = Some (_id d)
    ∧ (∀ x, x ∈ l1 → _id x ≠ _id d)
    ∧ _id d' = _id d
    ∧ fields d' !! "message" = Some message
    ∧ fields d' !! "expiration_date" = Some expiration_date
    ∧ fields d' !! "start_date" = Some (Py.or_empty start_date)
    ∧ (∀ k, k ≠ "message" → k ≠ "expiration_date" → k ≠ "start_date" →
            fields d' !! k = fields d !! k)
    ∧ fields d' !! "created_by" = fields d !! "created_by"
    ∧ fields d' !! "created_at" = fields d !! "created_at"
    ∧ r !! "id" = Some (str (_id d))
    ∧ teachers_collection s' = teachers_collection s.
Proof.
  intros (obj_id & l1 & d & l2 & _ & Hid & Hl & Hl1 & <- & Hl' & Ht & ->)
    %update_returns.
  exists l1, d, l2, (updated message expiration_date start_date d).
  split; [done|]. split; [done|]. split; [done|]. split; [done|].
  split; [done|].
  split; [apply updated_lookup_set, update_data_of_message|].
  split; [apply updated_lookup_set, update_data_of_expiration_date|].
  split; [apply updated_lookup_set, update_data_of_start_date|].
  split; [intros k; apply updated_lookup_other|].
  split; [by apply updated_lookup_other|].
  split; [by apply updated_lookup_other|].
  split; [by rewrite serialize_lookup_id|done].
Qed.

Lemma update_replaces_three_fields_only_witness :
  ∃ d',
    announcements_collection
      (update_announcement "0102030405060708090a0b02" "Spring play, new date"
         "2099-06-01" (Some "2027-02-01") "mrodriguez" Sample.store).2
    = [Sample.last_day; d'; Sample.expired]
    ∧ _id d' = Sample.oid 2
    ∧ fields d' !! "message" = Some "Spring play, new date"
    ∧ fields d' !! "created_by" = Some "mrodriguez"
    ∧ fields d' !! "created_at" = Some "2026-10-01T08:00:00".
Proof.
  destruct (update_replaces_three_fields_only "0102030405060708090a0b02"
              "Spring play, new date" "2099-06-01" (Some "2027-02-01")
              "mrodriguez" Sample.store _ _ eq_refl)
    as (l1 & d & l2 & d' & Hl & Hl' & Hid & Hl1 & Hid' & Hm & _ & _ & _
        & Hby & Hat & _).
  injection Hid as Hd.
  assert (Hsplit : l1 = [Sample.last_day] ∧ d = Sample.upcoming
                   ∧ l2 = [Sample.expired]).
  { destruct l1 as [|x1 [|x2 l1]]; simpl in Hl.
    - injection Hl as <- _. vm_compute in Hd. discriminate Hd.
    - by injection Hl as <- <- <-.
    - injection Hl as <- <- _.
      destruct (Hl1 Sample.upcoming); [|done].
      apply elem_of_cons. right. apply elem_of_cons. by left. }
  destruct Hsplit as (-> & -> & ->).
  exists d'. split; [done|]. split; [by rewrite Hid'|]. split; [done|].
  split; [by rewrite Hby|by rewrite Hat].
Defined.

(** The record the store finds under the id after a returning update. *)
Lemma update_returns_found announcement_id message expiration_date start_date
    teacher_username s r s' :
  update_announcement announcement_id message expiration_date start_date
    teacher_username s = (Returns r, s') →
  ∃ obj_id d,
    ObjectId_of_str announcement_id = Some obj_id
    ∧ d ∈ announcements_collection s ∧ _id d = obj_id
    ∧ head (filter (λ x, matches (q_id obj_id) x = true)
              (announcements_collection s'))
      = Some (updated message expiration_date start_date d)
    ∧ r = _serialize_announcement (updated message expiration_date start_date d).
Proof.
  intros (obj_id & l1 & d & l2 & _ & Hid & Hl & Hl1 & Hd & Hl' & _ & ->)
    %update_returns.
  exists obj_id, d. split; [done|]. split.
  { rewrite Hl. apply elem_of_app. right. by left. }
  split; [done|]. split; [|done].
  rewrite Hl'. apply head_filter_middle; [by apply no_match_by_id|].
  by apply matches_q_id.
Qed.

(** C10. When update returns and the start date was omitted or given as the
    empty string, the record stored under the id has the empty string as its
    [start_date], whatever start date it had before, and so has the record
    returned. *)
Theorem update_without_start_date_clears_it announcement_id message
    expiration_date start_date teacher_username s r s' :
  update_announcement announcement_id message expiration_date start_date
    teacher_username s = (Returns r, s') →
  start_date = None ∨ start_date = Some "" →
  ∃ obj_id d',
    ObjectId_of_str announcement_id = Some obj_id
    ∧ head (filter (λ x, matches (q_id obj_id) x = true)
              (announcements_collection s')) = Some d'
    ∧ fields d' !! "start_date" = Some ""
    ∧ r !! "start_date" = Some "".
Proof.
  intros (obj_id & d & Hid & _ & _ & Hhead & ->)%update_returns_found Hsd.
  exists obj_id, (updated message expiration_date start_date d).
  split; [done|]. split; [done|].
  assert (Hstored : fields (updated message expiration_date start_date d)
                      !! "start_date" = Some "").
  { rewrite (updated_lookup_set _ _ _ _ _ _ (update_data_of_start_date _ _ _)).
    by destruct Hsd as [-> | ->]. }
  split; [done|]. by rewrite serialize_lookup_ne.
Qed.

Lemma update_without_start_date_clears_it_witness :
  fields Sample.upcoming !! "start_date" = Some "2027-01-01"
  ∧ ∃ d',
      head (filter (λ x, matches (q_id (Sample.oid 2)) x = true)
              (announcements_collection
                 (update_announcement "0102030405060708090a0b02" "Spring play"
                    "2099-01-01" None "mrodriguez" Sample.store).2)) = Some d'
      ∧ fields d' !! "start_date" = Some "".
Proof.
  split; [by vm_compute|].
  destruct (update_without_start_date_clears_it "0102030405060708090a0b02"
              "Spring play" "2099-01-01" None "mrodriguez" Sample.store _ _
              eq_refl (or_introl eq_refl))
    as (obj_id & d' & Hid & Hhead & Hsd & _).
  injection Hid as <-. by exists d'.
Defined.

(** ** The message *)

(** C9, as stated, fails: create and update by a known teacher with an
    empty message return, and the record they leave in the store has the
    empty string as its message. *)
Lemma empty_message_is_persisted :
  (∃ r s' stored,
     create_announcement Sample.env "" "2099-01-01" None "mrodriguez"
       Sample.store = (Returns r, s')
     ∧ stored ∈ announcements_collection s'
     ∧ fields stored !! "message" = Some "")
  ∧ (∃ r s' stored,
       update_announcement "0102030405060708090a0b02" "" "2099-01-01" None
         "mrodriguez" Sample.store = (Returns r, s')
       ∧ stored ∈ announcements_collection s'
       ∧ fields stored !! "message" = Some "").
Proof.
  split.
  - destruct (create_succeeds Sample.env "" "2099-01-01" None "mrodriguez"
                Sample.store) as (r & s' & Hrun).
    + apply sample_teacher_known.
    + by eexists.
    + by intros sd [=].
    + apply (sample_id_unused 255). lia.
    + exists r, s', (created Sample.env "" "2099-01-01" None "mrodriguez").
      split; [done|]. split; [|done].
      apply create_returns in Hrun as (_ & _ & _ & -> & _).
      apply elem_of_app. right. by left.
  - destruct (update_succeeds "0102030405060708090a0b02" (Sample.oid 2) ""
                "2099-01-01" None "mrodriguez" Sample.store Sample.upcoming)
      as (r & s' & Hrun).
    + apply sample_teacher_known.
    + reflexivity.
    + apply elem_of_cons. right. by left.
    + reflexivity.
    + by eexists.
    + by intros sd [=].
    + destruct (update_returns_found _ _ _ _ _ _ _ _ Hrun)
        as (obj_id & d & Hid & _ & _ & Hhead & ->).
      eexists _, s', (updated "" "2099-01-01" None d).
      split; [exact Hrun|]. split.
      * apply head_Some_elem_of in Hhead.
        by apply list_elem_of_filter in Hhead as [_ ?].
      * exact (updated_lookup_set _ _ _ _ _ _ (update_data_of_message _ _ _)).
Qed.

(** C9 (as the code has it). The message is stored as it is supplied, with
    no check: the record a returning create appends, and the record the
    store holds under the id after a returning update, have the supplied
    string as their message; it is non-empty when the supplied one is. *)
Theorem stored_message_is_supplied_message message expiration_date start_date
    teacher_username s r s' :
  (∀ env,
     create_announcement env message expiration_date start_date
       teacher_username s = (Returns r, s') →
     ∃ stored,
       announcements_collection s' = announcements_collection s ++ [stored]
       ∧ fields stored !! "message" = Some message
       ∧ (message ≠ "" → fields stored !! "message" ≠ Some ""))
  ∧ (∀ announcement_id,
       update_announcement announcement_id message expiration_date start_date
         teacher_username s = (Returns r, s') →
       ∃ obj_id stored,
         ObjectId_of_str announcement_id = Some obj_id
         ∧ head (filter (λ x, matches (q_id obj_id) x = true)
                   (announcements_collection s')) = Some stored
         ∧ fields stored !! "message" = Some message
         ∧ (message ≠ "" → fields stored !! "message" ≠ Some "")).
Proof.
  split.
  - intros env (_ & _ & _ & Hcoll & _)%create_returns.
    exists (created env message expiration_date start_date teacher_username).
    split; [done|].
    assert (Hm : fields (created env message expiration_date start_date
                           teacher_username) !! "message" = Some message)
      by apply lookup_insert_eq.
    split; [done|]. rewrite Hm. congruence.
  - intros announcement_id
      (obj_id & d & Hid & _ & _ & Hhead & _)%update_returns_found.
    exists obj_id, (updated message expiration_date start_date d).
    split; [done|]. split; [done|].
    assert (Hm : fields (updated message expiration_date start_date d)
                   !! "message" = Some message)
      by apply updated_lookup_set, update_data_of_message.
    split; [done|]. rewrite Hm. congruence.
Qed.

Lemma stored_message_is_supplied_message_witness :
  (∃ stored,
     announcements_collection
       (create_announcement Sample.env "Bake sale" "2099-01-01" None
          "mrodriguez" Sample.store).2
     = announcements_collection Sample.store ++ [stored]
     ∧ fields stored !! "message" = Some "Bake sale")
  ∧ (∃ stored,
       head (filter (λ x, matches (q_id (Sample.oid 2)) x = true)
               (announcements_collection
                  (update_announcement "0102030405060708090a0b02" "Bake sale"
                     "2099-01-01" None "mrodriguez"
                     (create_announcement Sample.env "Bake sale" "2099-01-01"
                        None "mrodriguez" Sample.store).2).2)) = Some stored
       ∧ fields stored !! "message" = Some "Bake sale").
Proof.
  split.
  - destruct (proj1 (stored_message_is_supplied_message "Bake sale"
                       "2099-01-01" None "mrodriguez" Sample.store _ _)
                Sample.env eq_refl) as (stored & Hcoll & Hm & _).
    by exists stored.
  - destruct (proj2 (stored_message_is_supplied_message "Bake sale"
                       "2099-01-01" None "mrodriguez"
                       (create_announcement Sample.env "Bake sale" "2099-01-01"
                          None "mrodriguez" Sample.store).2 _ _)
                "0102030405060708090a0b02" eq_refl)
      as (obj_id & stored & Hid & Hhead & Hm & _).
    injection Hid as <-. by exists stored.
Defined.

(** * Further properties of the endpoints *)

(** ** The order of strings and of sort keys *)

Section order_facts.









End order_facts.

(** ** Sorting *)

Section sort_facts.

Variable k : string.





End sort_facts.

(** ** The listings *)

Lemma get_all_announcements_run teacher_username s t :
  teachers_collection s !! teacher_username = Some t →
  get_all_announcements teacher_username s
  = (Returns (map _serialize_announcement
       (sort_desc "created_at"
          (filter (λ d, matches no_filter d = true) (announcements_collection s)))),
     log (announcements_find no_filter) (log (teachers_find_one teacher_username) s)).
Proof.
  intros Ht. unfold get_all_announcements, bind, teachers.find_one.
  by rewrite Ht.
Qed.

Lemma filter_no_filter (l : list document) :
  filter (λ d, matches no_filter d = true) l = l.
Proof.
  induction l as [|d l IH]; [done|]. rewrite filter_cons_True by done.
  by rewrite IH.
Qed.


(** The public listing returns exactly the stored announcements that the
    visibility rule lets through, serialized, and nothing else; it needs no
    teacher and leaves both collections as they are. *)
Theorem list_active_returns_exactly_shown env s :
  ∃ results s',
    get_active_announcements env s = (Returns results, s')
    ∧ (∀ r, r ∈ results ↔
            ∃ A, A ∈ announcements_collection s
                 ∧ shown_on (Py.strftime_Ymd (now env)) A
                 ∧ r = _serialize_announcement A)
    ∧ announcements_collection s' = announcements_collection s
    ∧ teachers_collection s' = teachers_collection s.
Proof.
  eexists _, _. split; [apply get_active_announcements_run|].
  split; [|done]. intros r. rewrite list_elem_of_In, in_map_iff. split.
  - intros (A & <- & HA).
    apply list_elem_of_In, elem_of_sort_desc, list_elem_of_filter in HA
      as [Hq HA].
    exists A. by rewrite <-matches_active_query.
  - intros (A & HA & Hshown & ->). exists A. split; [done|].
    apply list_elem_of_In, elem_of_sort_desc, list_elem_of_filter.
    by rewrite matches_active_query.
Qed.

(** For a known teacher the full listing returns every stored announcement,
    expired or not, each exactly once, and leaves both collections as they
    are. *)
Theorem list_all_returns_every_record teacher_username s :
  is_Some (teachers_collection s !! teacher_username) →
  ∃ results s',
    get_all_announcements teacher_username s = (Returns results, s')
    ∧ results ≡ₚ map _serialize_announcement (announcements_collection s)
    ∧ announcements_collection s' = announcements_collection s
    ∧ teachers_collection s' = teachers_collection s.
Proof.
  intros [t Ht]. eexists _, _.
  split; [by apply (get_all_announcements_run _ _ t)|]. split; [|done].
  rewrite filter_no_filter. apply Permutation_map, sort_desc_perm.
Qed.

Lemma list_all_returns_every_record_witness :
  ∃ results s',
    get_all_announcements "mrodriguez" Sample.store = (Returns results, s')
    ∧ results ≡ₚ map _serialize_announcement
                   [Sample.last_day; Sample.upcoming; Sample.expired]
    ∧ announcements_collection s' = announcements_collection Sample.store
    ∧ teachers_collection s' = teachers_collection Sample.store.
Proof.
  apply (list_all_returns_every_record "mrodriguez" Sample.store).
  apply sample_teacher_known.
Defined.



Lemma list_active_hides_expired_witness :
  ∃ results s',
    get_active_announcements Sample.env Sample.store = (Returns results, s')
    ∧ ¬ appears_in Sample.expired results.
Proof.
  apply (list_active_hides_expired Sample.env Sample.store Sample.expired
           "2000-01-01").
  - do 2 (apply elem_of_cons; right). apply elem_of_cons. by left.
  - by vm_compute.
  - by vm_compute.
Defined.

(** An announcement whose start date is later than today is not in the
    public listing, however far away its expiration date is. *)
Theorem list_active_hides_not_started env s A sd :
  A ∈ announcements_collection s →
  fields A !! "start_date" = Some sd →
  (Py.strftime_Ymd (now env) <? sd)%string = true →
  ∃ results s',
    get_active_announcements env s = (Returns results, s')
    ∧ ¬ appears_in A results.
Proof.
  intros HA Hsd Hlt.
  eexists _, _. split; [apply get_active_announcements_run|].
  rewrite appears_in_active_iff by done. intros [_ Hstart].
  rewrite Hsd in Hstart.
  destruct Hstart as [|[[= ->]|(sd' & [= <-] & Hle)]]; [done| |].
  - by destruct (Py.strftime_Ymd (now env)).
  - apply string_ltb_not_leb in Hlt. congruence.
Qed.

Lemma list_active_hides_not_started_witness :
  ∃ results s',
    get_active_announcements Sample.env Sample.store = (Returns results, s')
    ∧ ¬ appears_in Sample.upcoming results.
Proof.
  apply (list_active_hides_not_started Sample.env Sample.store Sample.upcoming
           "2027-01-01").
  - apply elem_of_cons; right. apply elem_of_cons. by left.
  - by vm_compute.
  - by vm_compute.
Defined.

(** Whatever the public listing returns, the full listing of a known
    teacher returns too. *)
Theorem list_active_within_list_all env teacher_username s active s1 :
  is_Some (teachers_collection s !! teacher_username) →
  get_active_announcements env s = (Returns active, s1) →
  ∃ every s2,
    get_all_announcements teacher_username s1 = (Returns every, s2)
    ∧ ∀ r, r ∈ active → r ∈ every.
Proof.
  intros [t Ht] Hrun.
  rewrite get_active_announcements_run in Hrun. injection Hrun as <- <-.
  eexists _, _. split; [by apply (get_all_announcements_run _ _ t)|].
  intros r. rewrite !list_elem_of_In, !in_map_iff.
  intros (A & <- & HA). exists A. split; [done|].
  apply list_elem_of_In, elem_of_sort_desc, list_elem_of_filter in HA as [_ HA].
  apply list_elem_of_In, elem_of_sort_desc. simpl.
  by rewrite filter_no_filter.
Qed.

Lemma list_active_within_list_all_witness :
  ∃ active every,
    (get_active_announcements Sample.env Sample.store).1 = Returns active
    ∧ (get_all_announcements "mrodriguez"
         (get_active_announcements Sample.env Sample.store).2).1 = Returns every
    ∧ ∀ r, r ∈ active → r ∈ every.
Proof.
  destruct (list_active_within_list_all Sample.env "mrodriguez" Sample.store
              _ _ sample_teacher_known
              (get_active_announcements_run Sample.env Sample.store))
    as (every & s2 & Hrun & Hsub).
  eexists _, every. split; [reflexivity|]. split; [|exact Hsub].
  rewrite get_active_announcements_run. cbn [snd]. by rewrite Hrun.
Defined.

(** ** Delete *)

Lemma remove_first_middle q l1 d l2 :
  Forall (λ x, matches q x ≠ true) l1 → matches q d = true →
  remove_first q (l1 ++ d :: l2) = (l1 ++ l2, 1).
Proof.
  induction 1 as [|e l1 He _ IH]; intros Hd; simpl.
  - by rewrite Hd.
  - destruct (matches q e); [done|]. by rewrite IH.
Qed.

(** The first match of a query splits a list that has one. *)
Lemma first_match_split q (l : list document) d :
  d ∈ l → matches q d = true →
  ∃ l1 d' l2, l = l1 ++ d' :: l2 ∧ Forall (λ x, matches q x ≠ true) l1
              ∧ matches q d' = true.
Proof.
  intros Hd Hq.
  destruct (head (filter (λ x, matches q x = true) l)) as [d'|] eqn:Hhead.
  - apply head_filter_Some in Hhead as (l1 & l2 & ? & ? & ?). by exists l1, d', l2.
  - apply head_filter_None in Hhead.
    rewrite Forall_forall in Hhead. by destruct (Hhead d Hd).
Qed.

(** What a returning delete did. *)
Lemma delete_returns announcement_id teacher_username s r s' :
  delete_announcement announcement_id teacher_username s = (Returns r, s') →
  ∃ obj_id l1 d l2,
    is_Some (teachers_collection s !! teacher_username)
    ∧ ObjectId_of_str announcement_id = Some obj_id
    ∧ announcements_collection s = l1 ++ d :: l2
    ∧ (∀ x, x ∈ l1 → _id x ≠ obj_id)
    ∧ _id d = obj_id
    ∧ announcements_collection s' = l1 ++ l2
    ∧ teachers_collection s' = teachers_collection s
    ∧ r = deleted_confirmation.
Proof.
  unfold delete_announcement, bind, teachers.find_one, announcements.delete_one,
    ret, raise.
  destruct (teachers_collection s !! teacher_username) as [t|] eqn:Ht; [|done].
  destruct (ObjectId_of_str announcement_id) as [obj_id|] eqn:Hid; [|done].
  simpl.
  destruct (head (filter (λ x, matches (q_id obj_id) x = true)
                    (announcements_collection s))) as [d|] eqn:Hhead.
  - apply head_filter_Some in Hhead as (l1 & l2 & Hl & Hl1 & Hd).
    rewrite Hl, remove_first_middle by done. simpl.
    intros [= <- <-]. exists obj_id, l1, d, l2.
    split; [by eexists|]. split; [done|]. split; [done|].
    split; [by apply no_match_by_id|]. split; [by apply matches_q_id|done].
  - apply head_filter_None in Hhead. by rewrite remove_first_none.
Qed.

(** Delete returns its confirmation exactly when the teacher is known, the
    id is a well-formed key and some record has it; it then removes the
    first record with that id and nothing else. *)
Theorem delete_returns_iff_record_exists announcement_id teacher_username s :
  (∃ r s', delete_announcement announcement_id teacher_username s
           = (Returns r, s'))
  ↔ is_Some (teachers_collection s !! teacher_username)
    ∧ ∃ obj_id d,
        ObjectId_of_str announcement_id = Some obj_id
        ∧ d ∈ announcements_collection s ∧ _id d = obj_id.
Proof.
  split.
  - intros (r & s' & (obj_id & l1 & d & l2 & Ht & Hid & Hl & _ & Hd & _)
                     %delete_returns).
    split; [done|]. exists obj_id, d. split; [done|]. split; [|done].
    rewrite Hl. apply elem_of_app. right. by left.
  - intros ([t Ht] & obj_id & d & Hid & Hd & Hd_id).
    apply matches_q_id in Hd_id.
    destruct (first_match_split _ _ _ Hd Hd_id) as (l1 & d' & l2 & Hl & Hl1 & Hd').
    unfold delete_announcement, bind, teachers.find_one,
      announcements.delete_one, ret, raise.
    rewrite Ht, Hid. simpl. rewrite Hl, remove_first_middle by done. simpl.
    by eexists _, _.
Qed.

(** When delete returns, the value is the confirmation message, exactly one
    record is gone, the first one with the given id, and the other records
    and the teacher directory are as before. *)
Theorem delete_removes_one_record announcement_id teacher_username s r s' :
  delete_announcement announcement_id teacher_username s = (Returns r, s') →
  r = deleted_confirmation
  ∧ ∃ l1 d l2,
      ObjectId_of_str announcement_id = Some (_id d)
      ∧ announcements_collection s = l1 ++ d :: l2
      ∧ (∀ x, x ∈ l1 → _id x ≠ _id d)
      ∧ announcements_collection s' = l1 ++ l2
      ∧ teachers_collection s' = teachers_collection s.
Proof.
  intros (obj_id & l1 & d & l2 & _ & Hid & Hl & Hl1 & <- & Hl' & Ht & ->)
    %delete_returns.
  split; [done|]. by exists l1, d, l2.
Qed.

Lemma delete_removes_one_record_witness :
  ∃ l1 d l2,
    ObjectId_of_str "0102030405060708090a0b02" = Some (_id d)
    ∧ announcements_collection Sample.store = l1 ++ d :: l2
    ∧ [Sample.last_day; Sample.expired] = l1 ++ l2.
Proof.
  assert (Hrun : delete_announcement "0102030405060708090a0b02" "mrodriguez"
                   Sample.store
                 = (Returns deleted_confirmation,
                    with_announcements [Sample.last_day; Sample.expired]
                      (log (announcements_delete_one (q_id (Sample.oid 2)))
                         (log (teachers_find_one "mrodriguez") Sample.store))))
    by reflexivity.
  destruct (delete_removes_one_record _ _ _ _ _ Hrun)
    as [_ (l1 & d & l2 & Hid & Hl & _ & Hl' & _)].
  by exists l1, d, l2.
Defined.

(** ** Which error, and when *)

Lemma check_start_date_cases start_date s :
  (check_start_date start_date s = (Returns tt, s) ∧ start_date_ok start_date)
  ∨ (check_start_date start_date s = (Raises invalid_start_date, s)
     ∧ ¬ start_date_ok start_date).
Proof.
  unfold check_start_date, start_date_ok.
  destruct start_date as [sd|]; [|by left].
  destruct (Py.truthy sd) eqn:Htruthy.
  - rewrite check_date_run. destruct (Py.strptime_Ymd sd) as [ymd|] eqn:Hsd.
    + left. split; [done|]. intros ? [= <-] _. by rewrite Hsd.
    + right. split; [done|]. intros Hok.
      destruct (Hok sd eq_refl Htruthy) as [ymd Hymd]. congruence.
  - left. split; [done|]. intros ? [= <-]. congruence.
Qed.

(** A record with the id exists, or none does. *)
Lemma record_with_id obj_id (l : list document) :
  (∃ d, d ∈ l ∧ _id d = obj_id) ∨ (∀ d, d ∈ l → _id d ≠ obj_id).
Proof.
  destruct (head (filter (λ x, matches (q_id obj_id) x = true) l))
    as [d|] eqn:Hhead.
  - left. apply head_filter_Some in Hhead as (l1 & l2 & -> & _ & Hd).
    exists d. split; [|by apply matches_q_id].
    apply elem_of_app. right. by left.
  - right. by apply no_match_by_id, head_filter_None.
Qed.

(** Every way update can fail, with the state it leaves. *)
Lemma update_raises announcement_id message expiration_date start_date
    teacher_username s e s' :
  update_announcement announcement_id message expiration_date start_date
    teacher_username s = (Raises e, s') →
  (announcements_collection s' = announcements_collection s
   ∧ teachers_collection s' = teachers_collection s)
  ∧ ((teachers_collection s !! teacher_username = None
      ∧ e = authentication_required)
     ∨ (is_Some (teachers_collection s !! teacher_username)
        ∧ ((ObjectId_of_str announcement_id = None
            ∧ e = invalid_announcement_id)
           ∨ ∃ obj_id,
               ObjectId_of_str announcement_id = Some obj_id
               ∧ (((∀ d, d ∈ announcements_collection s → _id d ≠ obj_id)
                   ∧ e = announcement_not_found)
                  ∨ ((∃ d, d ∈ announcements_collection s ∧ _id d = obj_id)
                     ∧ ((Py.strptime_Ymd expiration_date = None
                         ∧ e = invalid_expiration_date)
                        ∨ (is_Some (Py.strptime_Ymd expiration_date)
                           ∧ ¬ start_date_ok start_date
                           ∧ e = invalid_start_date))))))).
Proof.
  unfold update_announcement, bind, teachers.find_one, announcements.find_one,
    announcements.update_one, check_date, ret, raise.
  destruct (teachers_collection s !! teacher_username) as [t|] eqn:Ht;
    [|intros [= <- <-]; split; [done|by left]].
  destruct (ObjectId_of_str announcement_id) as [obj_id|] eqn:Hid;
    [|intros [= <- <-]; split; [done|]; right; split; [done|by left]].
  simpl.
  destruct (head _) as [d|] eqn:Hhead.
  2:{ intros [= <- <-]. split; [done|]. right. split; [done|]. right.
      exists obj_id. split; [done|]. left. split; [|done].
      by apply no_match_by_id, head_filter_None. }
  apply head_filter_Some in Hhead as (l1 & l2 & Hl & Hl1 & Hd).
  assert (Hex : ∃ d0, d0 ∈ announcements_collection s ∧ _id d0 = obj_id).
  { exists d. split; [|by apply matches_q_id].
    rewrite Hl. apply elem_of_app. right. by left. }
  destruct (Py.strptime_Ymd expiration_date) as [ymd|] eqn:He.
  2:{ intros [= <- <-]. split; [done|]. right. split; [done|]. right.
      exists obj_id. split; [done|]. right. split; [done|]. by left. }
  destruct (check_start_date_cases start_date
              (log (announcements_find_one (q_id obj_id))
                 (log (teachers_find_one teacher_username) s)))
    as [[-> Hok] | [-> Hbad]].
  - simpl. rewrite Hl, set_first_middle by done.
    rewrite head_filter_middle; [done|done|by rewrite matches_q_id in *].
  - intros [= <- <-]. split; [done|]. right. split; [done|]. right.
    exists obj_id. split; [done|]. right. split; [done|]. right.
    by repeat split.
Qed.

(** The errors of update, in the order the code checks for them: unknown
    teacher (401), malformed id (400), no record with the id (404),
    malformed expiration date (400), malformed start date (400).  Each is
    raised only when all the earlier checks passed, and update raises
    nothing else. *)
Theorem update_errors_in_order announcement_id message expiration_date
    start_date teacher_username s e :
  (update_announcement announcement_id message expiration_date start_date
     teacher_username s).1 = Raises e →
  (teachers_collection s !! teacher_username = None
   ∧ e = authentication_required)
  ∨ (is_Some (teachers_collection s !! teacher_username)
     ∧ ((ObjectId_of_str announcement_id = None ∧ e = invalid_announcement_id)
        ∨ ∃ obj_id,
            ObjectId_of_str announcement_id = Some obj_id
            ∧ (((∀ d, d ∈ announcements_collection s → _id d ≠ obj_id)
                ∧ e = announcement_not_found)
               ∨ ((∃ d, d ∈ announcements_collection s ∧ _id d = obj_id)
                  ∧ ((Py.strptime_Ymd expiration_date = None
                      ∧ e = invalid_expiration_date)
                     ∨ (is_Some (Py.strptime_Ymd expiration_date)
                        ∧ ¬ start_date_ok start_date
                        ∧ e = invalid_start_date)))))).
Proof.
  destruct (update_announcement _ _ _ _ _ s) as [o s'] eqn:Hrun.
  simpl. intros ->. by apply update_raises in Hrun as [_ ?].
Qed.

Lemma update_errors_in_order_witness :
  (∃ d, d ∈ announcements_collection Sample.store ∧ _id d = Sample.oid 2)
  ∧ Py.strptime_Ymd "2099-02-30" = None.
Proof.
  assert (Hrun : (update_announcement "0102030405060708090a0b02" "Spring play"
                    "2099-02-30" (Some "tomorrow") "mrodriguez" Sample.store).1
                 = Raises invalid_expiration_date) by reflexivity.
  destruct (update_errors_in_order _ _ _ _ _ _ _ Hrun)
    as [[Hnone _]|[_ [[Hid _]|(obj_id & Hid & [[_ He]|[Hex [[Hdate _]|H]]])]]].
  - by vm_compute in Hnone.
  - by vm_compute in Hid.
  - discriminate He.
  - injection Hid as <-. by split.
  - destruct H as (_ & _ & He). discriminate He.
Defined.

Lemma update_returns_dates announcement_id message expiration_date start_date
    teacher_username s r s' :
  update_announcement announcement_id message expiration_date start_date
    teacher_username s = (Returns r, s') →
  is_Some (Py.strptime_Ymd expiration_date) ∧ start_date_ok start_date.
Proof.
  unfold update_announcement, bind, teachers.find_one, announcements.find_one,
    check_date, ret, raise.
  destruct (teachers_collection s !! teacher_username) as [t|]; [|done].
  destruct (ObjectId_of_str announcement_id) as [obj_id|]; [|done].
  simpl. destruct (head _) as [d|]; [|done].
  destruct (Py.strptime_Ymd expiration_date) as [ymd|]; [|done].
  destruct (check_start_date_cases start_date
              (log (announcements_find_one (q_id obj_id))
                 (log (teachers_find_one teacher_username) s)))
    as [[-> Hok] | [-> _]]; [|done].
  intros _. split; [by eexists|done].
Qed.

(** Update returns exactly when the teacher is known, the id is a
    well-formed key that some record has, the expiration date parses, and
    the start date is omitted, empty or parses. *)
Theorem update_returns_iff announcement_id message expiration_date start_date
    teacher_username s :
  (∃ r s', update_announcement announcement_id message expiration_date
             start_date teacher_username s = (Returns r, s'))
  ↔ is_Some (teachers_collection s !! teacher_username)
    ∧ (∃ obj_id d, ObjectId_of_str announcement_id = Some obj_id
                   ∧ d ∈ announcements_collection s ∧ _id d = obj_id)
    ∧ is_Some (Py.strptime_Ymd expiration_date)
    ∧ start_date_ok start_date.
Proof.
  split.
  - intros (r & s' & Hrun).
    destruct (update_returns _ _ _ _ _ _ _ _ Hrun)
      as (obj_id & l1 & d & l2 & Ht & Hid & Hl & _ & Hd & _).
    split; [done|]. split; [|by apply update_returns_dates in Hrun].
    exists obj_id, d. split; [done|]. split; [|done].
    rewrite Hl. apply elem_of_app. right. by left.
  - intros (Ht & (obj_id & d & Hid & Hd & Hd_id) & He & Hsd).
    by apply (update_succeeds _ obj_id _ _ _ _ _ d).
Qed.

(** Every way create can fail, with the state it leaves. *)
Lemma create_raises env message expiration_date start_date teacher_username
    s e s' :
  create_announcement env message expiration_date start_date teacher_username s
  = (Raises e, s') →
  (announcements_collection s' = announcements_collection s
   ∧ teachers_collection s' = teachers_collection s)
  ∧ ((teachers_collection s !! teacher_username = None
      ∧ e = authentication_required)
     ∨ (is_Some (teachers_collection s !! teacher_username)
        ∧ ((Py.strptime_Ymd expiration_date = None
            ∧ e = invalid_expiration_date)
           ∨ (is_Some (Py.strptime_Ymd expiration_date)
              ∧ ((¬ start_date_ok start_date ∧ e = invalid_start_date)
                 ∨ (start_date_ok start_date
                    ∧ (∃ d, d ∈ announcements_collection s
                            ∧ _id d = new_id env)
                    ∧ e = DuplicateKeyError)))))).
Proof.
  unfold create_announcement, bind, teachers.find_one, announcements.insert_one,
    check_date, ret, raise.
  destruct (teachers_collection s !! teacher_username) as [t|] eqn:Ht;
    [|intros [= <- <-]; split; [done|by left]].
  destruct (Py.strptime_Ymd expiration_date) as [ymd|] eqn:He;
    [|intros [= <- <-]; split; [done|]; right; split; [done|by left]].
  destruct (check_start_date_cases start_date
              (log (teachers_find_one teacher_username) s))
    as [[-> Hok] | [-> Hbad]].
  - simpl. destruct (existsb _ _) eqn:Hdup; [|done].
    intros [= <- <-]. split; [done|]. right. split; [done|]. right.
    split; [done|]. right. split; [done|]. split; [|done].
    destruct (record_with_id (new_id env) (announcements_collection s))
      as [|Hfree]; [done|].
    apply no_match_by_id, existsb_matches_false in Hfree. congruence.
  - intros [= <- <-]. split; [done|]. right. split; [done|]. right.
    split; [done|]. by left.
Qed.

(** The errors of create, in the order the code checks for them: unknown
    teacher (401), malformed expiration date (400), malformed start date
    (400); past these checks the only failure left is the store refusing an
    id it already holds.  Create raises nothing else. *)
Theorem create_errors_in_order env message expiration_date start_date
    teacher_username s e :
  (create_announcement env message expiration_date start_date
     teacher_username s).1 = Raises e →
  (teachers_collection s !! teacher_username = None
   ∧ e = authentication_required)
  ∨ (is_Some (teachers_collection s !! teacher_username)
     ∧ ((Py.strptime_Ymd expiration_date = None ∧ e = invalid_expiration_date)
        ∨ (is_Some (Py.strptime_Ymd expiration_date)
           ∧ ((¬ start_date_ok start_date ∧ e = invalid_start_date)
              ∨ (start_date_ok start_date
                 ∧ (∃ d, d ∈ announcements_collection s ∧ _id d = new_id env)
                 ∧ e = DuplicateKeyError))))).
Proof.
  destruct (create_announcement _ _ _ _ _ s) as [o s'] eqn:Hrun.
  simpl. intros ->. by apply create_raises in Hrun as [_ ?].
Qed.

Lemma create_errors_in_order_witness :
  Py.strptime_Ymd "2099-01-01" = Some (2099, 1, 1)
  ∧ ¬ start_date_ok (Some "soon").
Proof.
  assert (Hrun : (create_announcement Sample.env "Bake sale" "2099-01-01"
                    (Some "soon") "mrodriguez" Sample.store).1
                 = Raises invalid_start_date) by reflexivity.
  split; [reflexivity|].
  destruct (create_errors_in_order _ _ _ _ _ _ _ Hrun)
    as [[_ He]|[_ [[_ He]|[_ [[Hbad _]|(_ & _ & He)]]]]];
    [discriminate He|discriminate He|done|discriminate He].
Defined.

Lemma create_returns_dates env message expiration_date start_date
    teacher_username s r s' :
  create_announcement env message expiration_date start_date teacher_username s
  = (Returns r, s') →
  is_Some (Py.strptime_Ymd expiration_date) ∧ start_date_ok start_date.
Proof.
  unfold create_announcement, bind, teachers.find_one, check_date, ret, raise.
  destruct (teachers_collection s !! teacher_username) as [t|]; [|done].
  destruct (Py.strptime_Ymd expiration_date) as [ymd|]; [|done].
  destruct (check_start_date_cases start_date
              (log (teachers_find_one teacher_username) s))
    as [[_ Hok] | [-> _]]; [|done].
  intros _. split; [by eexists|done].
Qed.

(** Create returns exactly when the teacher is known, the expiration date
    parses, the start date is omitted, empty or parses, and the generated
    id is not yet in the store. *)
Theorem create_returns_iff env message expiration_date start_date
    teacher_username s :
  (∃ r s', create_announcement env message expiration_date start_date
             teacher_username s = (Returns r, s'))
  ↔ is_Some (teachers_collection s !! teacher_username)
    ∧ is_Some (Py.strptime_Ymd expiration_date)
    ∧ start_date_ok start_date
    ∧ (∀ d, d ∈ announcements_collection s → _id d ≠ new_id env).
Proof.
  split.
  - intros (r & s' & Hrun).
    destruct (create_returns _ _ _ _ _ _ _ _ Hrun) as (Ht & He & Hfree & _).
    split; [done|]. split; [done|]. split; [|done].
    by apply create_returns_dates in Hrun as [_ ?].
  - intros (Ht & He & Hsd & Hfree). by apply create_succeeds.
Qed.

(** Every way delete can fail, with the state it leaves. *)
Lemma delete_raises announcement_id teacher_username s e s' :
  delete_announcement announcement_id teacher_username s = (Raises e, s') →
  (announcements_collection s' = announcements_collection s
   ∧ teachers_collection s' = teachers_collection s)
  ∧ ((teachers_collection s !! teacher_username = None
      ∧ e = authentication_required)
     ∨ (is_Some (teachers_collection s !! teacher_username)
        ∧ ((ObjectId_of_str announcement_id = None
            ∧ e = invalid_announcement_id)
           ∨ ∃ obj_id,
               ObjectId_of_str announcement_id = Some obj_id
               ∧ (∀ d, d ∈ announcements_collection s → _id d ≠ obj_id)
               ∧ e = announcement_not_found))).
Proof.
  unfold delete_announcement, bind, teachers.find_one, announcements.delete_one,
    ret, raise.
  destruct (teachers_collection s !! teacher_username) as [t|] eqn:Ht;
    [|intros [= <- <-]; split; [done|by left]].
  destruct (ObjectId_of_str announcement_id) as [obj_id|] eqn:Hid;
    [|intros [= <- <-]; split; [done|]; right; split; [done|by left]].
  simpl.
  destruct (record_with_id obj_id (announcements_collection s))
    as [(d & Hd & Hd_id)|Hnone].
  - apply matches_q_id in Hd_id.
    destruct (first_match_split _ _ _ Hd Hd_id) as (l1 & d' & l2 & Hl & Hl1 & Hd').
    by rewrite Hl, remove_first_middle.
  - rewrite remove_first_none by by apply no_match_by_id.
    simpl. intros [= <- <-]. split; [done|]. right. split; [done|]. right.
    by exists obj_id.
Qed.

(** A call that raises, whatever it raises, leaves the announcements and
    the teachers exactly as they were: no handler writes before its last
    check. *)
Theorem failed_calls_change_nothing env announcement_id message expiration_date
    start_date teacher_username s e s' :
  create_announcement env message expiration_date start_date teacher_username s
    = (Raises e, s')
  ∨ update_announcement announcement_id message expiration_date start_date
      teacher_username s = (Raises e, s')
  ∨ delete_announcement announcement_id teacher_username s = (Raises e, s')
  ∨ get_all_announcements teacher_username s = (Raises e, s')
  ∨ get_active_announcements env s = (Raises e, s') →
  announcements_collection s' = announcements_collection s
  ∧ teachers_collection s' = teachers_collection s.
Proof.
  intros [Hrun|[Hrun|[Hrun|[Hrun|Hrun]]]].
  - by apply create_raises in Hrun as [? _].
  - by apply update_raises in Hrun as [? _].
  - by apply delete_raises in Hrun as [? _].
  - revert Hrun. unfold get_all_announcements, bind, teachers.find_one.
    destruct (teachers_collection s !! teacher_username); [done|].
    by intros [= <- <-].
  - by rewrite get_active_announcements_run in Hrun.
Qed.

Lemma failed_calls_change_nothing_witness :
  announcements_collection
    (update_announcement "0102030405060708090a0b02" "Spring play" "2099-02-30"
       None "mrodriguez" Sample.store).2
  = announcements_collection Sample.store.
Proof.
  assert (Hrun : update_announcement "0102030405060708090a0b02" "Spring play"
                   "2099-02-30" None "mrodriguez" Sample.store
                 = (Raises invalid_expiration_date,
                    log (announcements_find_one (q_id (Sample.oid 2)))
                      (log (teachers_find_one "mrodriguez") Sample.store)))
    by reflexivity.
  destruct (failed_calls_change_nothing Sample.env _ _ _ _ _ _ _ _
              (or_intror (or_introl Hrun))) as [Hcoll _].
  rewrite Hrun. exact Hcoll.
Defined.

(** No handler ever writes to the teacher directory, and the two listings
    write to nothing at all, whatever the outcome of the call. *)
Theorem teachers_are_never_modified env announcement_id message expiration_date
    start_date teacher_username s :
  teachers_collection
    (create_announcement env message expiration_date start_date
       teacher_username s).2 = teachers_collection s
  ∧ teachers_collection
      (update_announcement announcement_id message expiration_date start_date
         teacher_username s).2 = teachers_collection s
  ∧ teachers_collection (delete_announcement announcement_id teacher_username s).2
    = teachers_collection s
  ∧ teachers_collection (get_all_announcements teacher_username s).2
    = teachers_collection s
  ∧ announcements_collection (get_all_announcements teacher_username s).2
    = announcements_collection s
  ∧ teachers_collection (get_active_announcements env s).2
    = teachers_collection s
  ∧ announcements_collection (get_active_announcements env s).2
    = announcements_collection s.
Proof.
  split; [|split; [|split; [|split; [|split]]]].
  - destruct (create_announcement _ _ _ _ _ s) as [[r|e] s'] eqn:Hrun.
    + by apply create_returns in Hrun as (_ & _ & _ & _ & ? & _).
    + by apply create_raises in Hrun as [[_ ?] _].
  - destruct (update_announcement _ _ _ _ _ s) as [[r|e] s'] eqn:Hrun.
    + by apply update_returns in Hrun as (? & ? & ? & ? & _ & _ & _ & _ & _ & _ & ? & _).
    + by apply update_raises in Hrun as [[_ ?] _].
  - destruct (delete_announcement _ _ s) as [[r|e] s'] eqn:Hrun.
    + by apply delete_returns in Hrun as (? & ? & ? & ? & _ & _ & _ & _ & _ & _ & ? & _).
    + by apply delete_raises in Hrun as [[_ ?] _].
  - unfold get_all_announcements, bind, teachers.find_one.
    by destruct (teachers_collection s !! teacher_username).
  - unfold get_all_announcements, bind, teachers.find_one.
    by destruct (teachers_collection s !! teacher_username).
  - by rewrite get_active_announcements_run.
Qed.

(** ** Invariants of the store *)

Lemma unique_ids_app_fresh (l : list document) d :
  unique_ids l → (∀ x, x ∈ l → _id x ≠ _id d) → unique_ids (l ++ [d]).
Proof.
  unfold unique_ids. intros Hl Hfresh.
  rewrite map_app. simpl. apply NoDup_app. split; [done|]. split.
  - intros o Ho Hin. apply list_elem_of_In, in_map_iff in Ho as (x & <- & Hx).
    apply list_elem_of_singleton in Hin.
    by apply (Hfresh x); [apply list_elem_of_In|].
  - apply NoDup_singleton.
Qed.

Lemma unique_ids_replace (l1 l2 : list document) d d' :
  _id d' = _id d → unique_ids (l1 ++ d :: l2) → unique_ids (l1 ++ d' :: l2).
Proof. unfold unique_ids. rewrite !map_app. simpl. by intros ->. Qed.

Lemma unique_ids_remove (l1 l2 : list document) d :
  unique_ids (l1 ++ d :: l2) →
  unique_ids (l1 ++ l2) ∧ ∀ x, x ∈ l1 ++ l2 → _id x ≠ _id d.
Proof.
  unfold unique_ids. rewrite !map_app. simpl.
  intros Hnodup. apply NoDup_app in Hnodup as (Hl1 & Hdisj & Hl2).
  apply NoDup_cons in Hl2 as [Hd Hl2]. split.
  - apply NoDup_app. split; [done|]. split; [|done].
    intros o Ho Hin. apply (Hdisj o Ho). by right.
  - intros x Hx Heq. apply elem_of_app in Hx as [Hx|Hx].
    + apply (Hdisj (_id x)).
      * apply list_elem_of_In, in_map. by apply list_elem_of_In.
      * rewrite Heq. by left.
    + apply Hd. rewrite <-Heq.
      apply list_elem_of_In, in_map. by apply list_elem_of_In.
Qed.

(** The handlers keep the store's ids unique: if no two records share an
    [_id] before a call, none do after it, whether the call returns or
    raises. *)
Theorem unique_ids_are_preserved env announcement_id message expiration_date
    start_date teacher_username s :
  unique_ids (announcements_collection s) →
  unique_ids (announcements_collection
                (create_announcement env message expiration_date start_date
                   teacher_username s).2)
  ∧ unique_ids (announcements_collection
                  (update_announcement announcement_id message expiration_date
                     start_date teacher_username s).2)
  ∧ unique_ids (announcements_collection
                  (delete_announcement announcement_id teacher_username s).2).
Proof.
  intros Huniq. split; [|split].
  - destruct (create_announcement _ _ _ _ _ s) as [[r|e] s'] eqn:Hrun; simpl.
    + apply create_returns in Hrun as (_ & _ & Hfree & -> & _).
      by apply unique_ids_app_fresh.
    + apply create_raises in Hrun as [[-> _] _]. done.
  - destruct (update_announcement _ _ _ _ _ s) as [[r|e] s'] eqn:Hrun; simpl.
    + apply update_returns in Hrun
        as (obj_id & l1 & d & l2 & _ & _ & Hl & _ & _ & -> & _).
      rewrite Hl in Huniq. by apply (unique_ids_replace _ _ d).
    + apply update_raises in Hrun as [[-> _] _]. done.
  - destruct (delete_announcement _ _ s) as [[r|e] s'] eqn:Hrun; simpl.
    + apply delete_returns in Hrun
        as (obj_id & l1 & d & l2 & _ & _ & Hl & _ & _ & -> & _).
      rewrite Hl in Huniq. by apply unique_ids_remove in Huniq as [? _].
    + apply delete_raises in Hrun as [[-> _] _]. done.
Qed.

Lemma sample_unique_ids : unique_ids (announcements_collection Sample.store).
Proof.
  unfold unique_ids. simpl.
  repeat (apply NoDup_cons; split;
          [rewrite ?elem_of_cons, elem_of_nil; intros H;
           repeat (destruct H as [H|H]; [discriminate H|]); done|]).
  apply NoDup_nil_2.
Qed.

Lemma unique_ids_are_preserved_witness :
  unique_ids (announcements_collection
                (create_announcement Sample.env "Bake sale" "2099-01-01" None
                   "mrodriguez" Sample.store).2).
Proof.
  apply (unique_ids_are_preserved Sample.env "" "Bake sale" "2099-01-01" None
           "mrodriguez" Sample.store sample_unique_ids).
Defined.

(** After a delete that returned, a second delete of the same id finds
    nothing, provided the store had one record per id. *)
Theorem delete_twice_is_not_found announcement_id teacher_username s r s1 :
  unique_ids (announcements_collection s) →
  delete_announcement announcement_id teacher_username s = (Returns r, s1) →
  (delete_announcement announcement_id teacher_username s1).1
  = Raises announcement_not_found.
Proof.
  intros Huniq (obj_id & l1 & d & l2 & Ht & Hid & Hl & _ & <- & Hl' & Ht' & _)
    %delete_returns.
  rewrite Hl in Huniq. apply unique_ids_remove in Huniq as [_ Hgone].
  apply (delete_unknown_id_run _ (_id d)); [by rewrite Ht'|done|].
  by rewrite Hl'.
Qed.

Lemma delete_twice_is_not_found_witness :
  (delete_announcement "0102030405060708090a0b02" "mrodriguez"
     (delete_announcement "0102030405060708090a0b02" "mrodriguez"
        Sample.store).2).1
  = Raises announcement_not_found.
Proof.
  assert (Hrun : delete_announcement "0102030405060708090a0b02" "mrodriguez"
                   Sample.store
                 = (Returns deleted_confirmation,
                    with_announcements [Sample.last_day; Sample.expired]
                      (log (announcements_delete_one (q_id (Sample.oid 2)))
                         (log (teachers_find_one "mrodriguez") Sample.store))))
    by reflexivity.
  rewrite Hrun.
  apply (delete_twice_is_not_found _ _ _ _ _ sample_unique_ids Hrun).
Defined.

Lemma or_empty_ok start_date :
  start_date_ok start_date →
  Py.or_empty start_date = "" ∨ is_Some (Py.strptime_Ymd (Py.or_empty start_date)).
Proof.
  intros Hok. destruct start_date as [sd|]; [|by left]. simpl.
  destruct (Py.truthy sd) eqn:Htruthy; [|by left]. right. by apply Hok.
Qed.

(** The dates in the store stay well formed: if every record has an
    expiration date that parses and a start date that is empty or parses,
    the same holds after create, update and delete, whatever their
    outcome. *)
Theorem dates_stay_well_formed env announcement_id message expiration_date
    start_date teacher_username s :
  Forall well_dated (announcements_collection s) →
  Forall well_dated
    (announcements_collection
       (create_announcement env message expiration_date start_date
          teacher_username s).2)
  ∧ Forall well_dated
      (announcements_collection
         (update_announcement announcement_id message expiration_date
            start_date teacher_username s).2)
  ∧ Forall well_dated
      (announcements_collection
         (delete_announcement announcement_id teacher_username s).2).
Proof.
  intros Hall. split; [|split].
  - destruct (create_announcement _ _ _ _ _ s) as [[r|e] s'] eqn:Hrun; simpl.
    + destruct (create_returns_dates _ _ _ _ _ _ _ _ Hrun) as [_ Hok].
      apply create_returns in Hrun as (_ & He & _ & -> & _).
      apply Forall_app. split; [done|]. constructor; [|done]. split.
      * exists expiration_date. split; [|done]. simpl. unfold doc_of.
        rewrite lookup_insert_ne by done. apply lookup_insert_eq.
      * exists (Py.or_empty start_date). split; [|by apply or_empty_ok].
        simpl. unfold doc_of. rewrite !lookup_insert_ne by done.
        apply lookup_insert_eq.
    + apply create_raises in Hrun as [[-> _] _]. done.
  - destruct (update_announcement _ _ _ _ _ s) as [[r|e] s'] eqn:Hrun; simpl.
    + destruct (update_returns_dates _ _ _ _ _ _ _ _ Hrun) as [He Hok].
      apply update_returns in Hrun
        as (obj_id & l1 & d & l2 & _ & _ & Hl & _ & _ & -> & _).
      rewrite Hl in Hall. apply Forall_app in Hall as [Hl1 Hl2].
      apply Forall_cons in Hl2 as [_ Hl2].
      apply Forall_app. split; [done|]. constructor; [|done]. split.
      * exists expiration_date. split; [|done].
        apply updated_lookup_set, update_data_of_expiration_date.
      * exists (Py.or_empty start_date). split; [|by apply or_empty_ok].
        apply updated_lookup_set, update_data_of_start_date.
    + apply update_raises in Hrun as [[-> _] _]. done.
  - destruct (delete_announcement _ _ s) as [[r|e] s'] eqn:Hrun; simpl.
    + apply delete_returns in Hrun
        as (obj_id & l1 & d & l2 & _ & _ & Hl & _ & _ & -> & _).
      rewrite Hl in Hall. apply Forall_app in Hall as [Hl1 Hl2].
      apply Forall_cons in Hl2 as [_ Hl2]. apply Forall_app. by split.
    + apply delete_raises in Hrun as [[-> _] _]. done.
Qed.

Lemma sample_well_dated : Forall well_dated (announcements_collection Sample.store).
Proof.
  repeat constructor.
  - by exists "2026-11-03".
  - exists "". split; [done|by left].
  - by exists "2099-01-01".
  - exists "2027-01-01". split; [done|by right].
  - by exists "2000-01-01".
  - exists "1999-12-01". split; [done|by right].
Qed.

Lemma dates_stay_well_formed_witness :
  Forall well_dated
    (announcements_collection
       (update_announcement "0102030405060708090a0b02" "Spring play"
          "2099-06-01" (Some "2027-2-1") "mrodriguez" Sample.store).2).
Proof.
  apply (dates_stay_well_formed Sample.env "0102030405060708090a0b02"
           "Spring play" "2099-06-01" (Some "2027-2-1") "mrodriguez"
           Sample.store sample_well_dated).
Defined.

(** ** How the operations compose *)

(** A known teacher updating the first record with the id, with dates that
    pass the checks: the call returns the replaced record. *)
Lemma update_run_ok announcement_id obj_id message expiration_date start_date
    teacher_username s l1 d l2 :
  is_Some (teachers_collection s !! teacher_username) →
  ObjectId_of_str announcement_id = Some obj_id →
  announcements_collection s = l1 ++ d :: l2 →
  (∀ x, x ∈ l1 → _id x ≠ obj_id) → _id d = obj_id →
  is_Some (Py.strptime_Ymd expiration_date) → start_date_ok start_date →
  ∃ s',
    update_announcement announcement_id message expiration_date start_date
      teacher_username s
    = (Returns (_serialize_announcement
                  (updated message expiration_date start_date d)), s')
    ∧ announcements_collection s'
      = l1 ++ updated message expiration_date start_date d :: l2
    ∧ teachers_collection s' = teachers_collection s.
Proof.
  intros [t Ht] Hid Hl Hl1 Hd [ymd He] Hsd.
  apply no_match_by_id in Hl1. apply matches_q_id in Hd.
  unfold update_announcement, bind, teachers.find_one, announcements.find_one,
    announcements.update_one, check_date, ret, raise.
  rewrite Ht, Hid. simpl. rewrite Hl, head_filter_middle by done.
  rewrite He, check_start_date_ok by done. simpl.
  rewrite Hl, set_first_middle by done.
  rewrite head_filter_middle; [|done|by rewrite matches_q_id in *].
  by eexists.
Qed.

Lemma updated_updated message expiration_date start_date d :
  updated message expiration_date start_date
    (updated message expiration_date start_date d)
  = updated message expiration_date start_date d.
Proof.
  unfold updated. simpl. f_equal.
  by rewrite (assoc_L (∪)), (idemp_L (∪)).
Qed.

(** Update is idempotent: repeating an update that returned, with the same
    arguments, returns the same record again and leaves the announcements
    as the first update left them. *)
Theorem update_twice_is_update_once announcement_id message expiration_date
    start_date teacher_username s r s1 :
  update_announcement announcement_id message expiration_date start_date
    teacher_username s = (Returns r, s1) →
  ∃ s2,
    update_announcement announcement_id message expiration_date start_date
      teacher_username s1 = (Returns r, s2)
    ∧ announcements_collection s2 = announcements_collection s1.
Proof.
  intros Hrun. destruct (update_returns_dates _ _ _ _ _ _ _ _ Hrun) as [He Hsd].
  apply update_returns in Hrun
    as (obj_id & l1 & d & l2 & Ht & Hid & Hl & Hl1 & Hd & Hl' & Ht' & ->).
  destruct (update_run_ok announcement_id obj_id message expiration_date
              start_date teacher_username s1 l1
              (updated message expiration_date start_date d) l2)
    as (s2 & Hrun2 & Hl2 & _); try done.
  { by rewrite Ht'. }
  exists s2. rewrite updated_updated in Hrun2, Hl2. split; [done|].
  by rewrite Hl2, Hl'.
Qed.

Lemma update_twice_is_update_once_witness :
  ∃ r s1 s2,
    update_announcement "0102030405060708090a0b02" "Spring play, new date"
      "2099-06-01" None "mrodriguez" Sample.store = (Returns r, s1)
    ∧ update_announcement "0102030405060708090a0b02" "Spring play, new date"
        "2099-06-01" None "mrodriguez" s1 = (Returns r, s2)
    ∧ announcements_collection s2 = announcements_collection s1.
Proof.
  destruct (update_succeeds "0102030405060708090a0b02" (Sample.oid 2)
              "Spring play, new date" "2099-06-01" None "mrodriguez"
              Sample.store Sample.upcoming) as (r & s1 & Hrun).
  - apply sample_teacher_known.
  - reflexivity.
  - apply elem_of_cons. right. by left.
  - reflexivity.
  - by eexists.
  - by intros sd [=].
  - destruct (update_twice_is_update_once _ _ _ _ _ _ _ _ Hrun)
      as (s2 & Hrun2 & Hcoll).
    by exists r, s1, s2.
Defined.

(** *** Object ids and their strings *)

Lemma hex_digit_val x :
  x < 16 → Py.hex_val (Py.hex_digit x) = Some x
           ∧ Py.is_space (Py.hex_digit x) = false.
Proof.
  intros Hx. destruct x as [|p]; [done|].
  do 4 (destruct p as [p|p|]; try lia; try done).
Qed.

Lemma fromhex_hexlify bs :
  Forall (λ b, b < 256) bs → fromhex (hexlify bs) = Some bs.
Proof.
  induction 1 as [|b bs Hb _ IH]; [done|].
  assert (Hhi : b / 16 < 16) by (apply N.Div0.div_lt_upper_bound; lia).
  assert (Hlo : b mod 16 < 16) by (apply N.mod_lt; lia).
  destruct (hex_digit_val _ Hhi) as [Hhi_val Hhi_space].
  destruct (hex_digit_val _ Hlo) as [Hlo_val _].
  cbn [hexlify fromhex]. rewrite Hhi_space, Hhi_val, Hlo_val, IH.
  simpl. do 2 f_equal. symmetry. apply N.div_mod. lia.
Qed.

Lemma length_hexlify bs : String.length (hexlify bs) = (2 * length bs)%nat.
Proof. induction bs as [|b bs IH]; simpl; [done|]. rewrite IH. lia. Qed.

(** The string of a well-formed id reads back as that id. *)
Lemma ObjectId_of_str_str o : well_formed o → ObjectId_of_str (str o) = Some o.
Proof.
  intros [Hlen Hbytes]. unfold ObjectId_of_str, str, Py.len.
  rewrite length_hexlify, Hlen, fromhex_hexlify by done. by destruct o.
Qed.

(** A known teacher deleting the first record with the id. *)
Lemma delete_run_ok announcement_id obj_id teacher_username s l1 d l2 :
  is_Some (teachers_collection s !! teacher_username) →
  ObjectId_of_str announcement_id = Some obj_id →
  announcements_collection s = l1 ++ d :: l2 →
  (∀ x, x ∈ l1 → _id x ≠ obj_id) → _id d = obj_id →
  ∃ s',
    delete_announcement announcement_id teacher_username s
    = (Returns deleted_confirmation, s')
    ∧ announcements_collection s' = l1 ++ l2
    ∧ teachers_collection s' = teachers_collection s.
Proof.
  intros [t Ht] Hid Hl Hl1 Hd.
  apply no_match_by_id in Hl1. apply matches_q_id in Hd.
  unfold delete_announcement, bind, teachers.find_one, announcements.delete_one,
    ret, raise.
  rewrite Ht, Hid. simpl. rewrite Hl, remove_first_middle by done.
  by eexists.
Qed.

(** The id that create returns is the key of the record it stored: when the
    driver's id is a well-formed object id, deleting by the returned ["id"]
    right after the create returns the confirmation and puts the
    announcements back as they were before the create. *)
Theorem create_then_delete_restores env message expiration_date start_date
    teacher_username s r s1 :
  well_formed (new_id env) →
  create_announcement env message expiration_date start_date teacher_username s
  = (Returns r, s1) →
  ∃ announcement_id s2,
    r !! "id" = Some announcement_id
    ∧ delete_announcement announcement_id teacher_username s1
      = (Returns deleted_confirmation, s2)
    ∧ announcements_collection s2 = announcements_collection s.
Proof.
  intros Hwf (Ht & _ & Hfree & Hcoll & Ht' & ->)%create_returns.
  destruct (delete_run_ok (str (new_id env)) (new_id env) teacher_username s1
              (announcements_collection s)
              (created env message expiration_date start_date teacher_username)
              []) as (s2 & Hrun & Hcoll2 & _); try done.
  { by rewrite Ht'. }
  { by apply ObjectId_of_str_str. }
  exists (str (new_id env)), s2.
  split; [apply serialize_lookup_id|]. split; [done|].
  by rewrite Hcoll2, app_nil_r.
Qed.

Lemma sample_new_id_well_formed : well_formed (new_id Sample.env).
Proof. split; [done|]. repeat constructor. Qed.

Lemma create_then_delete_restores_witness :
  ∃ r s1 announcement_id s2,
    create_announcement Sample.env "Bake sale" "2099-01-01" None "mrodriguez"
      Sample.store = (Returns r, s1)
    ∧ r !! "id" = Some announcement_id
    ∧ delete_announcement announcement_id "mrodriguez" s1
      = (Returns deleted_confirmation, s2)
    ∧ announcements_collection s2 = announcements_collection Sample.store.
Proof.
  destruct (create_succeeds Sample.env "Bake sale" "2099-01-01" None
              "mrodriguez" Sample.store) as (r & s1 & Hrun).
  - apply sample_teacher_known.
  - by eexists.
  - by intros sd [=].
  - apply (sample_id_unused 255). lia.
  - destruct (create_then_delete_restores _ _ _ _ _ _ _ _
                sample_new_id_well_formed Hrun)
      as (announcement_id & s2 & Hid & Hdel & Hcoll).
    by exists r, s1, announcement_id, s2.
Defined.

(** Likewise update by the returned id reaches the record just created. *)
Theorem create_then_update_by_returned_id env message expiration_date
    start_date teacher_username s r s1 message' expiration_date' start_date' :
  well_formed (new_id env) →
  create_announcement env message expiration_date start_date teacher_username s
  = (Returns r, s1) →
  is_Some (Py.strptime_Ymd expiration_date') → start_date_ok start_date' →
  ∃ announcement_id r' s2,
    r !! "id" = Some announcement_id
    ∧ update_announcement announcement_id message' expiration_date'
        start_date' teacher_username s1 = (Returns r', s2)
    ∧ r' !! "id" = Some announcement_id
    ∧ r' !! "message" = Some message'
    ∧ r' !! "created_by" = Some teacher_username
    ∧ r' !! "created_at" = r !! "created_at"
    ∧ announcements_collection s2
      = announcements_collection s
        ++ [updated message' expiration_date' start_date'
              (created env message expiration_date start_date teacher_username)].
Proof.
  intros Hwf (Ht & _ & Hfree & Hcoll & Ht' & ->)%create_returns He Hsd.
  destruct (update_run_ok (str (new_id env)) (new_id env) message'
              expiration_date' start_date' teacher_username s1
              (announcements_collection s)
              (created env message expiration_date start_date teacher_username)
              []) as (s2 & Hrun & Hcoll2 & _); try done.
  { by rewrite Ht'. }
  { by apply ObjectId_of_str_str. }
  eexists (str (new_id env)), _, s2.
  split; [apply serialize_lookup_id|]. split; [exact Hrun|].
  split; [by rewrite serialize_lookup_id|].
  split.
  { rewrite serialize_lookup_ne by done.
    apply updated_lookup_set, update_data_of_message. }
  split.
  { rewrite serialize_lookup_ne, updated_lookup_other by done. simpl.
    unfold doc_of. rewrite !lookup_insert_ne by done. apply lookup_insert_eq. }
  split; [|done].
  by rewrite !serialize_lookup_ne, updated_lookup_other by done.
Qed.

Lemma create_then_update_by_returned_id_witness :
  ∃ r s1 announcement_id r' s2,
    create_announcement Sample.env "Bake sale" "2099-01-01" None "mrodriguez"
      Sample.store = (Returns r, s1)
    ∧ r !! "id" = Some announcement_id
    ∧ update_announcement announcement_id "Bake sale, moved" "2099-02-01"
        (Some "2099-01-15") "mrodriguez" s1 = (Returns r', s2)
    ∧ r' !! "message" = Some "Bake sale, moved".
Proof.
  destruct (create_succeeds Sample.env "Bake sale" "2099-01-01" None
              "mrodriguez" Sample.store) as (r & s1 & Hrun).
  - apply sample_teacher_known.
  - by eexists.
  - by intros sd [=].
  - apply (sample_id_unused 255). lia.
  - destruct (create_then_update_by_returned_id _ _ _ _ _ _ _ _
                "Bake sale, moved" "2099-02-01" (Some "2099-01-15")
                sample_new_id_well_formed Hrun)
      as (announcement_id & r' & s2 & Hid & Hupd & _ & Hm & _).
    + by eexists.
    + intros sd [= <-] _. by eexists.
    + by exists r, s1, announcement_id, r', s2.
Defined.

(** The record a create returned is in the next full listing of its
    author, and it is in a later public listing exactly when, on the day of
    that listing, the expiration date supplied is today or later and the
    start date supplied is omitted, empty, or today or earlier. *)
Theorem create_then_listed env message expiration_date start_date
    teacher_username s r s1 :
  create_announcement env message expiration_date start_date teacher_username s
  = (Returns r, s1) →
  (∃ every s2,
     get_all_announcements teacher_username s1 = (Returns every, s2)
     ∧ r ∈ every)
  ∧ ∀ env',
      ∃ active s2,
        get_active_announcements env' s1 = (Returns active, s2)
        ∧ (r ∈ active ↔
           (Py.strftime_Ymd (now env') <=? expiration_date)%string = true
           ∧ (Py.or_empty start_date = ""
              ∨ (Py.or_empty start_date <=? Py.strftime_Ymd (now env'))%string
                = true)).
Proof.
  intros (Ht & _ & _ & Hcoll & Ht' & ->)%create_returns.
  assert (Hin : created env message expiration_date start_date teacher_username
                ∈ announcements_collection s1).
  { rewrite Hcoll. apply elem_of_app. right. by left. }
  assert (He : fields (created env message expiration_date start_date
                         teacher_username) !! "expiration_date"
               = Some expiration_date).
  { simpl. unfold doc_of. rewrite lookup_insert_ne by done.
    apply lookup_insert_eq. }
  assert (Hsd : fields (created env message expiration_date start_date
                          teacher_username) !! "start_date"
                = Some (Py.or_empty start_date)).
  { simpl. unfold doc_of. rewrite !lookup_insert_ne by done.
    apply lookup_insert_eq. }
  split.
  - destruct Ht as [t Ht]. rewrite <-Ht' in Ht.
    eexists _, _. split; [by apply (get_all_announcements_run _ _ t)|].
    rewrite filter_no_filter. apply list_elem_of_In, in_map, list_elem_of_In.
    by apply elem_of_sort_desc.
  - intros env'. eexists _, _.
    split; [apply get_active_announcements_run|].
    fold (appears_in
            (created env message expiration_date start_date teacher_username)
            (map _serialize_announcement
               (sort_desc "created_at"
                  (filter (λ d, matches (active_query
                                           (Py.strftime_Ymd (now env'))) d = true)
                          (announcements_collection s1))))).
    rewrite appears_in_active_iff by done. unfold shown_on.
    rewrite He, Hsd. split.
    + intros [(e & [= <-] & Hle) Hstart]. split; [done|].
      destruct Hstart as [|[[= ->]|(sd & [= <-] & ?)]]; [done|by left|by right].
    + intros [Hle Hstart]. split; [by eexists|].
      destruct Hstart as [->|]; [by right; left|].
      right; right. by eexists.
Qed.

Lemma create_then_listed_witness :
  ∃ r s1 active s2,
    create_announcement Sample.env "Bake sale" "2099-01-01" None "mrodriguez"
      Sample.store = (Returns r, s1)
    ∧ get_active_announcements Sample.env s1 = (Returns active, s2)
    ∧ r ∈ active.
Proof.
  destruct (create_succeeds Sample.env "Bake sale" "2099-01-01" None
              "mrodriguez" Sample.store) as (r & s1 & Hrun).
  - apply sample_teacher_known.
  - by eexists.
  - by intros sd [=].
  - apply (sample_id_unused 255). lia.
  - destruct (create_then_listed _ _ _ _ _ _ _ _ Hrun) as [_ Hactive].
    destruct (Hactive Sample.env) as (active & s2 & Hlist & Hiff).
    exists r, s1, active, s2. split; [done|]. split; [done|].
    apply Hiff. split; [by vm_compute|by left].
Defined.

(** After an update that returned, the record it left is in a later public
    listing exactly when, on the day of that listing, the new expiration
    date is today or later and the new start date is omitted, empty, or
    today or earlier: the old dates no longer count. *)
Theorem update_then_listed announcement_id message expiration_date start_date
    teacher_username s r s1 env :
  update_announcement announcement_id message expiration_date start_date
    teacher_username s = (Returns r, s1) →
  ∃ active s2,
    get_active_announcements env s1 = (Returns active, s2)
    ∧ (r ∈ active ↔
       (Py.strftime_Ymd (now env) <=? expiration_date)%string = true
       ∧ (Py.or_empty start_date = ""
          ∨ (Py.or_empty start_date <=? Py.strftime_Ymd (now env))%string
            = true)).
Proof.
  intros (obj_id & l1 & d & l2 & _ & _ & _ & _ & _ & Hcoll & _ & ->)
    %update_returns.
  assert (Hin : updated message expiration_date start_date d
                ∈ announcements_collection s1).
  { rewrite Hcoll. apply elem_of_app. right. by left. }
  eexists _, _. split; [apply get_active_announcements_run|].
  fold (appears_in (updated message expiration_date start_date d)
          (map _serialize_announcement
             (sort_desc "created_at"
                (filter (λ x, matches (active_query
                                         (Py.strftime_Ymd (now env))) x = true)
                        (announcements_collection s1))))).
  rewrite appears_in_active_iff by done. unfold shown_on.
  rewrite (updated_lookup_set _ _ _ _ _ _
             (update_data_of_expiration_date message expiration_date start_date)).
  rewrite (updated_lookup_set _ _ _ _ _ _
             (update_data_of_start_date message expiration_date start_date)).
  split.
  - intros [(e & [= <-] & Hle) Hstart]. split; [done|].
    destruct Hstart as [|[[= ->]|(sd & [= <-] & ?)]]; [done|by left|by right].
  - intros [Hle Hstart]. split; [by eexists|].
    destruct Hstart as [->|]; [by right; left|].
    right; right. by eexists.
Qed.

Lemma update_then_listed_witness :
  ∃ r s1 active s2,
    update_announcement "0102030405060708090a0b03" "Welcome back" "2099-01-01"
      None "mrodriguez" Sample.store = (Returns r, s1)
    ∧ get_active_announcements Sample.env s1 = (Returns active, s2)
    ∧ r ∈ active.
Proof.
  destruct (update_succeeds "0102030405060708090a0b03" (Sample.oid 3)
              "Welcome back" "2099-01-01" None "mrodriguez"
              Sample.store Sample.expired) as (r & s1 & Hrun).
  - apply sample_teacher_known.
  - reflexivity.
  - do 2 (apply elem_of_cons; right). apply elem_of_cons. by left.
  - reflexivity.
  - by eexists.
  - by intros sd [=].
  - destruct (update_then_listed _ _ _ _ _ _ _ _ Sample.env Hrun)
      as (active & s2 & Hlist & Hiff).
    exists r, s1, active, s2. split; [done|]. split; [done|].
    apply Hiff. split; [by vm_compute|by left].
Defined.
